(** * CSV-to-XML conversion: record grouping, validation and document assembly

    A shallow embedding of the Go packages [csvparser], [converter],
    [validation], [xlsxparser] and [xmlwriter], with the properties of the
    rule-driven engine stated over it.

    Conventions of the embedding:
    - a Go [string] is a sequence of bytes: Rocq's [string] (a list of 8-bit
      [ascii]); [len(s)] is [String.length s] and [s[:n]] keeps [n] bytes;
    - a Go [map[string]string] is a [gmap string string]; indexing a missing
      key yields the zero value, the empty string ([m !!! k]);
    - a Go [int] is a [Z]; every integer computed below is an index or a
      counter bounded by the length of a slice held in memory, so the 64-bit
      wrap-around is never reached and is not written out;
    - a [rune] is a [Z] (a Unicode code point). *)

From stdpp Require Import gmap strings list fin_maps pretty sorting.
From Stdlib Require Import ZArith Lia Ascii String.

(** [length] and [concat] are those of lists; the string ones are written
    [String.length] and [String.concat]. *)
Abbreviation length := List.length.
Abbreviation concat := List.concat.

Open Scope string_scope.
Open Scope Z_scope.
Open Scope list_scope.

(** A flat record as produced by the CSV reader: header name to cell. *)
Abbreviation Row := (gmap string string).

(* ===================================================================== *)
(** ** Go strings: bytes, runes and UTF-8                                 *)
(* ===================================================================== *)

(** What the Go language and its [unicode/utf8] and [strconv] packages do
    with strings, as far as the code of this repository relies on it. *)
Module gostring.

Definition byteZ (c : ascii) : Z := Z.of_N (N_of_ascii c).
Definition byteOf (z : Z) : ascii := ascii_of_N (Z.to_N z).

Definition bytesOf (s : string) : list Z := map byteZ (list_ascii_of_string s).
Definition stringOf (bs : list Z) : string := string_of_list_ascii (map byteOf bs).

(** [len(s)] *)
Definition len (s : string) : Z := Z.of_nat (String.length s).

(** [utf8.RuneError], the replacement character U+FFFD. *)
Definition RuneError : Z := 0xFFFD.

Definition inRange (lo hi b : Z) : bool := (lo <=? b) && (b <=? hi).

(** [utf8.DecodeRuneInString]: the first rune of a byte sequence and the
    number of bytes it occupies; [None] where Go reports [(RuneError, 1)]
    for an ill-formed sequence.  The accepted second-byte ranges are those of
    the Unicode standard (no overlong forms, no surrogates, nothing above
    U+10FFFF). *)
Definition decodeRune (bs : list Z) : option (Z * nat) :=
  match bs with
  | [] => None
  | b0 :: t =>
      if b0 <? 0x80 then Some (b0, 1%nat)
      else if inRange 0xC2 0xDF b0 then
        match t with
        | b1 :: _ =>
            if inRange 0x80 0xBF b1
            then Some ((b0 - 0xC0) * 64 + (b1 - 0x80), 2%nat) else None
        | _ => None
        end
      else if inRange 0xE0 0xEF b0 then
        match t with
        | b1 :: b2 :: _ =>
            let lo := if b0 =? 0xE0 then 0xA0 else 0x80 in
            let hi := if b0 =? 0xED then 0x9F else 0xBF in
            if inRange lo hi b1 && inRange 0x80 0xBF b2
            then Some ((b0 - 0xE0) * 4096 + (b1 - 0x80) * 64 + (b2 - 0x80), 3%nat)
            else None
        | _ => None
        end
      else if inRange 0xF0 0xF4 b0 then
        match t with
        | b1 :: b2 :: b3 :: _ =>
            let lo := if b0 =? 0xF0 then 0x90 else 0x80 in
            let hi := if b0 =? 0xF4 then 0x8F else 0xBF in
            if inRange lo hi b1 && inRange 0x80 0xBF b2 && inRange 0x80 0xBF b3
            then Some ((b0 - 0xF0) * 262144 + (b1 - 0x80) * 4096
                       + (b2 - 0x80) * 64 + (b3 - 0x80), 4%nat)
            else None
        | _ => None
        end
      else None
  end.

(** [for _, r := range s]: the runes of a string in order.  An ill-formed
    byte yields [RuneError] and the iteration advances by one byte.  [skip]
    counts the bytes still belonging to the rune decoded last. *)
Fixpoint rangeRunes (skip : nat) (bs : list Z) : list Z :=
  match bs with
  | [] => []
  | _ :: t =>
      match skip with
      | S k => rangeRunes k t
      | O =>
          match decodeRune bs with
          | Some (r, size) => r :: rangeRunes (size - 1) t
          | None => RuneError :: rangeRunes 0 t
          end
      end
  end.

Definition runes (s : string) : list Z := rangeRunes 0 (bytesOf s).

(** [utf8.ValidString]: no decoding step reports an ill-formed sequence. *)
Fixpoint validFrom (skip : nat) (bs : list Z) : bool :=
  match bs with
  | [] => true
  | _ :: t =>
      match skip with
      | S k => validFrom k t
      | O =>
          match decodeRune bs with
          | Some (_, size) => validFrom (size - 1) t
          | None => false
          end
      end
  end.

Definition utf8Valid (s : string) : bool := validFrom 0 (bytesOf s).

(** [utf8.AppendRune]: the UTF-8 encoding of a rune; a negative rune, a
    surrogate or a rune above U+10FFFF is written as [RuneError]. *)
Definition encodeRune (r : Z) : list Z :=
  if (0 <=? r) && (r <? 0x80) then [r]
  else if (0x80 <=? r) && (r <? 0x800) then [0xC0 + r / 64; 0x80 + r mod 64]
  else if ((0x800 <=? r) && (r <? 0xD800)) || ((0xE000 <=? r) && (r <? 0x10000)) then
    [0xE0 + r / 4096; 0x80 + (r / 64) mod 64; 0x80 + r mod 64]
  else if (0x10000 <=? r) && (r <=? 0x10FFFF) then
    [0xF0 + r / 262144; 0x80 + (r / 4096) mod 64; 0x80 + (r / 64) mod 64; 0x80 + r mod 64]
  else [0xEF; 0xBF; 0xBD].

(** [string(rs)] for a slice of runes. *)
Definition stringOfRunes (rs : list Z) : string := stringOf (flat_map encodeRune rs).

(** [s[:n]] and [s[i:j]] on bytes. *)
Definition sliceTo (s : string) (n : Z) : string := String.substring 0 (Z.to_nat n) s.
Definition slice (s : string) (i j : Z) : string :=
  String.substring (Z.to_nat i) (Z.to_nat (j - i)) s.

(** [strings.HasPrefix] and [strings.TrimPrefix]. *)
Definition HasPrefix (s p : string) : bool := String.prefix p s.
Definition TrimPrefix (s p : string) : string :=
  if HasPrefix s p then String.substring (String.length p) (String.length s - String.length p) s
  else s.

(** [strings.Index]: the byte offset of the first occurrence, or -1. *)
Fixpoint indexFrom (i : Z) (s sub : string) : Z :=
  if String.prefix sub s then i
  else match s with
       | EmptyString => -1
       | String _ t => indexFrom (i + 1) t sub
       end.
Definition Index (s sub : string) : Z := indexFrom 0 s sub.
Definition Contains (s sub : string) : bool := 0 <=? Index s sub.

(** [strings.Split(s, sep)] for a one-byte separator, the only use made of it
    here ([strings.Split(value, ".")]). *)
Fixpoint splitByte (sep : ascii) (cur : string) (s : string) : list string :=
  match s with
  | EmptyString => [cur]
  | String c t =>
      if Ascii.eqb c sep then cur :: splitByte sep EmptyString t
      else splitByte sep (cur +:+ String c EmptyString) t
  end.
Definition Split (s : string) (sep : ascii) : list string := splitByte sep EmptyString s.

(** Decimal digits of [strconv.Atoi] and [strconv.ParseInt(s, 10, 64)]. *)
Definition digitVal (c : ascii) : option Z :=
  let n := byteZ c in if inRange 48 57 n then Some (n - 48) else None.

Fixpoint parseDigits (acc : Z) (s : string) : option Z :=
  match s with
  | EmptyString => Some acc
  | String c t =>
      match digitVal c with
      | Some d => parseDigits (acc * 10 + d) t
      | None => None
      end
  end.

Definition parseSigned (sign : Z) (digits : string) : option Z :=
  match digits with
  | EmptyString => None
  | _ =>
      match parseDigits 0 digits with
      | Some n =>
          let v := sign * n in
          if (- 2 ^ 63 <=? v) && (v <? 2 ^ 63) then Some v else None
      | None => None
      end
  end.

(** [strconv.Atoi] on a 64-bit platform: an optional sign and at least one
    decimal digit; [None] stands for [err != nil] (syntax or range). *)
Definition Atoi (s : string) : option Z :=
  match s with
  | String "+" t => parseSigned 1 t
  | String "-" t => parseSigned (-1) t
  | _ => parseSigned 1 s
  end.

(** The byte values, and the concatenation of a list of strings. *)
Definition isByte (b : Z) : Prop := 0 <= b < 256.
Definition concatStrings (l : list string) : string := foldr String.append EmptyString l.

(** [n] copies of a byte. *)
Fixpoint repeatByte (c : ascii) (n : nat) : string :=
  match n with
  | O => EmptyString
  | S k => String c (repeatByte c k)
  end.

(** [strings.Join(parts, sep)] *)
Fixpoint Join (parts : list string) (sep : string) : string :=
  match parts with
  | [] => EmptyString
  | [part] => part
  | part :: rest => part +:+ sep +:+ Join rest sep
  end.

End gostring.

(* ===================================================================== *)
(** ** The Go standard library, as far as it is left abstract             *)
(* ===================================================================== *)

(** The functions of the Go standard library that the repository calls and
    whose full definition (Unicode tables, regular expressions, floating
    point, calendar dates, the sorting algorithm) lies outside it.  Every
    property below holds for any implementation of this interface. *)
Class GoLibrary := {
  (** the type [float64] with its [>] and [<] *)
  float64 : Type;
  float64_gt : float64 -> float64 -> bool;
  float64_lt : float64 -> float64 -> bool;
  (** [strings.TrimSpace], [strings.ToLower] *)
  strings_TrimSpace : string -> string;
  strings_ToLower : string -> string;
  (** [strconv.ParseInt(s, 10, 64)]: [true] when [err == nil] *)
  strconv_ParseInt_ok : string -> bool;
  (** [strconv.ParseFloat(s, 64)]: the value, and [true] when [err == nil] *)
  strconv_ParseFloat : string -> float64 * bool;
  (** [time.Parse(layout, value)]: [true] when [err == nil] *)
  time_Parse_ok : string -> string -> bool;
  (** [unicode.IsLetter], [unicode.IsDigit], [unicode.IsSpace] on a rune *)
  unicode_IsLetter : Z -> bool;
  unicode_IsDigit : Z -> bool;
  unicode_IsSpace : Z -> bool;
  (** [regexp.MustCompile(pattern).FindStringSubmatch(s)]: the leftmost match
      and its groups, or the empty (nil) slice *)
  regexp_FindStringSubmatch : string -> string -> list string;
  (** [sort.Slice] on a slice of strings with a comparison of elements; it
      is not stable, and all that is known of its result is that it is a
      rearrangement of its input *)
  sort_Slice : (string -> string -> bool) -> list string -> list string;
  sort_Slice_Permutation : forall less l, Permutation (sort_Slice less l) l;
  (** the transformation kinds whose whole body is a call of [regexp],
      [time], [fmt] with a float, [strings.ToUpper], [strings.Title],
      [strings.TrimLeft], [strings.TrimRight] or [strings.ReplaceAll]:
      kind, current value, [action.Value], [action.Find] *)
  libraryTransformation : string -> string -> string -> string -> string * option string
}.

(* ===================================================================== *)
(** ** Packages [config] and [xlsxparser]: rules and schema               *)
(* ===================================================================== *)

Module config.

(** [type StaticField struct { XMLTag, Value, ParentTag string }] *)
Record StaticField := mkStaticField {
  sf_XMLTag : string;
  sf_Value : string;
  sf_ParentTag : string
}.

(** [type TransformationAction struct] *)
Record TransformationAction := mkTransformationAction {
  ta_Type : string;
  ta_Value : string;
  ta_Find : string;
  ta_Condition : string;
  ta_LookupTable : gmap string string
}.

(** The fields of [CSVSettings] read by the data-row extraction. *)
Record CSVSettings := mkCSVSettings {
  cs_HeaderRows : Z;
  cs_DataStartRow : Z
}.

(** [type TransformationRule struct { Field string; Actions []TransformationAction }] *)
Record TransformationRule := mkTransformationRule {
  tr_Field : string;
  tr_Actions : list TransformationAction
}.

(** [func applyDepartmentConfigDefaults(config *DepartmentConfig)], on the
    settings embedded here: the header and data rows of [CSVSettings] and
    the parent tag of the static fields.  (Its other assignments fill the
    delimiter, the encoding, the quote and escape characters and the sort
    order, which nothing embedded here reads.) *)
Definition applyCSVSettingsDefaults (settings : CSVSettings) : CSVSettings :=
  {| cs_HeaderRows := if cs_HeaderRows settings =? 0 then 1 else cs_HeaderRows settings;
     cs_DataStartRow :=
       if cs_DataStartRow settings =? 0 then 2 else cs_DataStartRow settings |}.

Definition applyStaticFieldDefaults (staticFields : list StaticField) : list StaticField :=
  map (fun sf =>
         if decide (sf_ParentTag sf = "")
         then {| sf_XMLTag := sf_XMLTag sf; sf_Value := sf_Value sf;
                 sf_ParentTag := "transaction" |}
         else sf)
      staticFields.

End config.

Module xlsxparser.

(** [type FieldMapping struct] *)
Record FieldMapping := mkFieldMapping {
  fm_OldHeader : string;
  fm_XMLTag : string;
  fm_ParentTag : string;
  fm_DataType : string;
  fm_MaxLength : Z;
  fm_RequiredType : string;
  fm_ConditionalRule : string;
  fm_DefaultValue : string;
  fm_Order : Z
}.

(** [type Schema struct]; a missing key of [FieldMappings] reads as [nil]. *)
Record Schema := mkSchema {
  sc_FieldMappings : gmap string FieldMapping;
  sc_TransactionFields : list string;
  sc_LineItemFields : list string;
  sc_CashbookFields : list string;
  sc_XMLRootElement : string;
  sc_XMLTransactionElement : string;
  sc_XMLLineItemElement : string
}.

(** [func (s *Schema) GetFieldMapping(oldHeader string) *FieldMapping] *)
Definition GetFieldMapping (s : Schema) (oldHeader : string) : option FieldMapping :=
  sc_FieldMappings s !! oldHeader.

(** The invariant [ParseWithConfig] establishes by
    [schema.FieldMappings[mapping.OldHeader] = mapping]. *)
Definition keyedByOldHeader (s : Schema) : Prop :=
  map_Forall (fun k m => fm_OldHeader m = k) (sc_FieldMappings s).

(** [type TemplateColumns struct]: the column of each attribute and the
    first data row, all 0-based. *)
Record TemplateColumns := mkTemplateColumns {
  tc_OldHeaderColumn : Z;
  tc_XMLTagColumn : Z;
  tc_ParentTagColumn : Z;
  tc_DataTypeColumn : Z;
  tc_MaxLengthColumn : Z;
  tc_RequiredColumn : Z;
  tc_ConditionalRuleColumn : Z;
  tc_HeaderRow : Z;
  tc_DataStartRow : Z
}.

Definition DefaultTemplateColumns : TemplateColumns :=
  {| tc_OldHeaderColumn := 0; tc_XMLTagColumn := 1; tc_ParentTagColumn := 2;
     tc_DataTypeColumn := 3; tc_MaxLengthColumn := 4; tc_RequiredColumn := 5;
     tc_ConditionalRuleColumn := 6; tc_HeaderRow := 0; tc_DataStartRow := 1 |}.

(** The words [normalizeRequiredType] and [normalizeDataType] recognise. *)
Definition requiredWords : list string :=
  ["required"; "req"; "r"; "yes"; "y"; "true"; "1"; "mandatory"].
Definition optionalWords : list string :=
  ["optional"; "opt"; "o"; "no"; "n"; "false"; "0"].
Definition conditionalWords : list string := ["conditional"; "cond"; "c"; "if"].

Definition stringWords : list string := ["string"; "str"; "text"; "varchar"].
Definition numericWords : list string := ["numeric"; "num"; "number"; "int"; "integer"].
Definition decimalWords : list string :=
  ["decimal"; "dec"; "float"; "double"; "money"; "currency"].
Definition alphanumericWords : list string := ["alphanumeric"; "alphanum"; "an"].
Definition alphaWords : list string := ["alpha"; "a"; "letters"].
Definition booleanWords : list string := ["boolean"; "bool"; "bit"].

Section Template.
Context `{GoLibrary}.

(** [func isRowEmpty(row []string) bool] of this package. *)
Fixpoint isRowEmpty (row : list string) : bool :=
  match row with
  | [] => true
  | cell :: rest =>
      if decide (strings_TrimSpace cell ≠ "") then false else isRowEmpty rest
  end.

(** [func normalizeRequiredType(value string) string] *)
Definition normalizeRequiredType (value : string) : string :=
  let value := strings_ToLower (strings_TrimSpace value) in
  if decide (value ∈ requiredWords) then "required"
  else if decide (value ∈ optionalWords) then "optional"
  else if decide (value ∈ conditionalWords) then "conditional"
  else "optional".

(** [func normalizeDataType(value string) string] *)
Definition normalizeDataType (value : string) : string :=
  let value := strings_ToLower (strings_TrimSpace value) in
  if gostring.HasPrefix value "decimal" then value
  else if gostring.HasPrefix value "date" then value
  else if decide (value ∈ stringWords) then "string"
  else if decide (value ∈ numericWords) then "numeric"
  else if decide (value ∈ decimalWords) then "decimal"
  else if decide (value ∈ alphanumericWords) then "alphanumeric"
  else if decide (value ∈ alphaWords) then "alpha"
  else if decide (value ∈ booleanWords) then "boolean"
  else "string".

(** The closure [getCell] of [parseRow]: the trimmed cell, [""] past the
    end of the row; a negative index makes [row[index]] panic, the result
    [None]. *)
Definition getCell (row : list string) (index : Z) : option string :=
  if index <? Z.of_nat (length row) then
    if index <? 0 then None
    else Some (strings_TrimSpace (default "" (row !! Z.to_nat index)))
  else Some "".

(** [func parseRow(row []string, columns TemplateColumns, rowIndex int)],
    which returns a mapping and an error; the error is always [nil],
    [None] is a panic. *)
Definition parseRow (row : list string) (columns : TemplateColumns) (rowIndex : Z)
    : option FieldMapping :=
  oldHeader ← getCell row (tc_OldHeaderColumn columns);
  xmlTag ← getCell row (tc_XMLTagColumn columns);
  parentTag ← getCell row (tc_ParentTagColumn columns);
  dataType ← getCell row (tc_DataTypeColumn columns);
  requiredType ← getCell row (tc_RequiredColumn columns);
  conditionalRule ← getCell row (tc_ConditionalRuleColumn columns);
  maxLengthStr ← getCell row (tc_MaxLengthColumn columns);
  let maxLength :=
    if decide (maxLengthStr ≠ "") then default 0 (gostring.Atoi maxLengthStr) else 0 in
  Some {| fm_OldHeader := oldHeader;
          fm_XMLTag := xmlTag;
          fm_ParentTag := parentTag;
          fm_DataType := normalizeDataType dataType;
          fm_MaxLength := maxLength;
          fm_RequiredType := normalizeRequiredType requiredType;
          fm_ConditionalRule := conditionalRule;
          fm_DefaultValue := "";
          fm_Order := rowIndex |}.

(** The schema [ParseWithConfig] starts from. *)
Definition emptySchema : Schema :=
  {| sc_FieldMappings := ∅;
     sc_TransactionFields := [];
     sc_LineItemFields := [];
     sc_CashbookFields := [];
     sc_XMLRootElement := "cashbook";
     sc_XMLTransactionElement := "transaction";
     sc_XMLLineItemElement := "lineItem" |}.

(** The end of one iteration of the loop of [ParseWithConfig]: the mapping
    is stored under its old header and the header is appended to the list
    of its parent. *)
Definition addMapping (schema : Schema) (mapping : FieldMapping) : Schema :=
  let mappings := <[fm_OldHeader mapping := mapping]> (sc_FieldMappings schema) in
  let parent := strings_ToLower (fm_ParentTag mapping) in
  let key := fm_OldHeader mapping in
  {| sc_FieldMappings := mappings;
     sc_TransactionFields :=
       if decide (parent = "transaction") then sc_TransactionFields schema ++ [key]
       else sc_TransactionFields schema;
     sc_LineItemFields :=
       if decide (parent = "transaction") then sc_LineItemFields schema
       else if decide (parent = "lineitem") then sc_LineItemFields schema ++ [key]
       else if decide (parent = "cashbook") then sc_LineItemFields schema
       else sc_LineItemFields schema ++ [key];
     sc_CashbookFields :=
       if decide (parent = "transaction") then sc_CashbookFields schema
       else if decide (parent = "lineitem") then sc_CashbookFields schema
       else if decide (parent = "cashbook") then sc_CashbookFields schema ++ [key]
       else sc_CashbookFields schema;
     sc_XMLRootElement := sc_XMLRootElement schema;
     sc_XMLTransactionElement := sc_XMLTransactionElement schema;
     sc_XMLLineItemElement := sc_XMLLineItemElement schema |}.

(** The loop [for i := columns.DataStartRow; i < len(rows); i++] over the
    rows from index [i] on. *)
Fixpoint parseRows (columns : TemplateColumns) (schema : Schema) (i : Z)
    (rows : list (list string)) : option Schema :=
  match rows with
  | [] => Some schema
  | row :: rest =>
      if bool_decide (length row = 0%nat) || isRowEmpty row
      then parseRows columns schema (i + 1) rest
      else
        mapping ← parseRow row columns i;
        if decide (fm_OldHeader mapping = "")
        then parseRows columns schema (i + 1) rest
        else parseRows columns (addMapping schema mapping) (i + 1) rest
  end.

(** [func ParseWithConfig(templatePath string, columns TemplateColumns)]
    from the point where [f.GetRows] has returned the rows of the first
    sheet; no error is returned from there on.  A negative [DataStartRow]
    makes [rows[i]] panic as soon as there is a row. *)
Definition schemaOfRows (rows : list (list string)) (columns : TemplateColumns)
    : option Schema :=
  let start := tc_DataStartRow columns in
  if start >=? Z.of_nat (length rows) then Some emptySchema
  else if start <? 0 then None
  else parseRows columns emptySchema start (drop (Z.to_nat start) rows).

(** [func (s *Schema) GetXMLTag(oldHeader string) string] *)
Definition GetXMLTag (s : Schema) (oldHeader : string) : string :=
  match sc_FieldMappings s !! oldHeader with
  | Some mapping => fm_XMLTag mapping
  | None => oldHeader
  end.

(** [func (s *Schema) IsTransactionField(oldHeader string) bool] *)
Definition IsTransactionField (s : Schema) (oldHeader : string) : bool :=
  match sc_FieldMappings s !! oldHeader with
  | Some mapping => bool_decide (strings_ToLower (fm_ParentTag mapping) = "transaction")
  | None => false
  end.

(** [func (s *Schema) IsLineItemField(oldHeader string) bool] *)
Definition IsLineItemField (s : Schema) (oldHeader : string) : bool :=
  match sc_FieldMappings s !! oldHeader with
  | Some mapping => bool_decide (strings_ToLower (fm_ParentTag mapping) = "lineitem")
  | None => true
  end.

End Template.

End xlsxparser.

(* ===================================================================== *)
(** ** Package [csvparser]: data-row extraction                           *)
(* ===================================================================== *)

Module csvparser.

Section WithLibrary.
Context `{GoLibrary}.

(** [func isRowEmpty(row []string) bool] *)
Fixpoint isRowEmpty (row : list string) : bool :=
  match row with
  | [] => true
  | cell :: rest =>
      if decide (strings_TrimSpace cell ≠ "") then false else isRowEmpty rest
  end.

(** One iteration of [for colIndex, header := range headers]. *)
Definition setColumn (row : list string) (rowMap : Row) (colIndex : nat)
    (header : string) : Row :=
  match row !! colIndex with
  | Some cell => <[header := strings_TrimSpace cell]> rowMap
  | None => <[header := ""]> rowMap
  end.

(** The inner loop over the headers, from column [colIndex] on. *)
Fixpoint fillRow (row : list string) (rowMap : Row) (colIndex : nat)
    (headers : list string) : Row :=
  match headers with
  | [] => rowMap
  | header :: rest => fillRow row (setColumn row rowMap colIndex header) (S colIndex) rest
  end.

Definition rowToMap (headers row : list string) : Row := fillRow row ∅ 0 headers.

(** The loop [for rowIndex := startIndex; rowIndex < len(allRows); rowIndex++]
    over the rows from [startIndex] on. *)
Fixpoint convertRows (headers : list string) (rows : list (list string)) : list Row :=
  match rows with
  | [] => []
  | row :: rest =>
      if isRowEmpty row then convertRows headers rest
      else rowToMap headers row :: convertRows headers rest
  end.

(** The first data row: [DataStartRow - 1], or [HeaderRows] when negative. *)
Definition startIndex (settings : config.CSVSettings) : Z :=
  let startIndex := config.cs_DataStartRow settings - 1 in
  if startIndex <? 0 then config.cs_HeaderRows settings else startIndex.

(** [func extractDataRows(allRows, headers, settings) ([]map[string]string, error)];
    the error result is always [nil].  The guard [startIndex >= len(allRows)]
    returns the empty slice, which is also what dropping that many rows
    gives; a [startIndex] that is still negative (a negative [HeaderRows])
    makes [allRows[rowIndex]] panic, the result [None]. *)
Definition extractDataRows (allRows : list (list string)) (headers : list string)
    (settings : config.CSVSettings) : option (list Row) :=
  let startIndex := startIndex settings in
  if startIndex >=? Z.of_nat (List.length allRows) then Some []
  else if startIndex <? 0 then None
  else Some (convertRows headers (drop (Z.to_nat startIndex) allRows)).

(** *** Specification vocabulary for the data rows *)

(** A row all of whose cells are empty once trimmed. *)
Definition blankRow (row : list string) : Prop :=
  Forall (fun cell => strings_TrimSpace cell = "") row.

#[export] Instance blankRow_dec row : Decision (blankRow row).
Proof. unfold blankRow. apply _. Defined.

(** The value stored for column [colIndex] of a row. *)
Definition cellValue (row : list string) (colIndex : nat) : string :=
  match row !! colIndex with
  | Some cell => strings_TrimSpace cell
  | None => ""
  end.

End WithLibrary.

(** [type CSVData struct] *)
Record CSVData := mkCSVData {
  cd_Headers : list string;
  cd_Rows : list Row;
  cd_RawRows : list (list string);
  cd_SourceFile : string;
  cd_RowCount : Z;
  cd_ColumnCount : Z
}.

(** [func GetColumnByHeader(data *CSVData, header string) []string] *)
Definition GetColumnByHeader (data : CSVData) (header : string) : list string :=
  map (fun row => row !!! header) (cd_Rows data).

(** One iteration of the loop of [GetUniqueValues]: the [seen] map and the
    [unique] slice. *)
Definition noteValue (header : string) (st : gmap string bool * list string)
    (row : Row) : gmap string bool * list string :=
  let value := row !!! header in
  if negb (default false (st.1 !! value))
  then (<[value := true]> st.1, st.2 ++ [value])
  else st.

(** [func GetUniqueValues(data *CSVData, header string) []string] *)
Definition GetUniqueValues (data : CSVData) (header : string) : list string :=
  (foldl (noteValue header) (∅, []) (cd_Rows data)).2.

(** [func FilterRows(data *CSVData, filterFunc func(row map[string]string) bool)
    []map[string]string] *)
Definition FilterRows (data : CSVData) (filterFunc : Row -> bool) : list Row :=
  foldl (fun filtered row => if filterFunc row then filtered ++ [row] else filtered)
        [] (cd_Rows data).

Section Headers.
Context `{GoLibrary}.

(** One iteration of the loop of [cleanHeaders], for the header at index [i]. *)
Definition cleanHeader (i : nat) (header : string) : string :=
  let header := strings_TrimSpace header in
  if decide (header = "") then "Column_" +:+ pretty (Z.of_nat i + 1) else header.

(** [func cleanHeaders(headers []string) []string] *)
Definition cleanHeaders (headers : list string) : list string := imap cleanHeader headers.

(** The loop that finds [maxCols] among the header rows. *)
Definition maxCols (headerRows : list (list string)) : nat :=
  foldl (fun maxCols row => if (maxCols <? length row)%nat then length row else maxCols)
        0%nat headerRows.

(** The inner loop of the merge: the non-empty trimmed cells of column
    [col], from the first header row to the last. *)
Definition headerParts (headerRows : list (list string)) (col : nat) : list string :=
  foldl (fun parts row =>
           match row !! col with
           | Some cell =>
               let value := strings_TrimSpace cell in
               if decide (value ≠ "") then parts ++ [value] else parts
           | None => parts
           end)
        [] headerRows.

(** The merged headers of several header rows. *)
Definition mergeHeaders (headerRows : list (list string)) : list string :=
  map (fun col => gostring.Join (headerParts headerRows col) " ")
      (seq 0 (maxCols headerRows)).

(** [func extractHeaders(allRows [][]string, settings config.CSVSettings)
    ([]string, error)]; the second component is [None] for a [nil] error. *)
Definition extractHeaders (allRows : list (list string)) (settings : config.CSVSettings)
    : list string * option string :=
  let headerRows := config.cs_HeaderRows settings in
  if headerRows <=? 0 then ([], Some "header_rows must be at least 1")
  else if Z.of_nat (length allRows) <? headerRows
  then ([], Some "file has fewer rows than header_rows setting")
  else if headerRows =? 1 then (cleanHeaders (default [] (allRows !! 0%nat)), None)
  else (cleanHeaders (mergeHeaders (take (Z.to_nat headerRows) allRows)), None).

(** [func Parse(filePath string, settings config.CSVSettings)] from the
    point where [csvReader.ReadAll] has returned [allRows]: the data, or an
    error; [None] is a panic, of [extractDataRows] or of the slice
    [allRows[settings.DataStartRow-1:]]. *)
Definition parseAllRows (filePath : string) (allRows : list (list string))
    (settings : config.CSVSettings) : option (option CSVData * option string) :=
  if bool_decide (length allRows = 0%nat) then Some (None, Some "CSV file is empty")
  else
    let '(headers, err) := extractHeaders allRows settings in
    match err with
    | Some e => Some (None, Some ("failed to extract headers: " +:+ e))
    | None =>
        dataRows ← extractDataRows allRows headers settings;
        let low := config.cs_DataStartRow settings - 1 in
        if (low <? 0) || (Z.of_nat (length allRows) <? low) then None
        else
          Some (Some {| cd_Headers := headers;
                        cd_Rows := dataRows;
                        cd_RawRows := drop (Z.to_nat low) allRows;
                        cd_SourceFile := filePath;
                        cd_RowCount := Z.of_nat (length dataRows);
                        cd_ColumnCount := Z.of_nat (length headers) |},
                None)
    end.

End Headers.

End csvparser.

(* ===================================================================== *)
(** ** Package [converter]: transactions and the record grouper          *)
(* ===================================================================== *)

Module converter.

(** [type LineItem struct { ID int; Fields map[string]string }] *)
Record LineItem := mkLineItem {
  li_ID : Z;
  li_Fields : Row
}.

(** [type Transaction struct { ID int; GroupKey string; LineItems []LineItem }] *)
Record Transaction := mkTransaction {
  tx_ID : Z;
  tx_GroupKey : string;
  tx_LineItems : list LineItem
}.

(** The branch of [groupTransactions] taken when [groupByField == ""]:
    [transactions[i] = Transaction{ID: i+1, LineItems: {{ID: i+1, Fields: row}}}]. *)
Definition singletonTransactions (rows : list Row) : list Transaction :=
  imap (fun i row =>
          {| tx_ID := Z.of_nat i + 1;
             tx_GroupKey := "";
             tx_LineItems := [ {| li_ID := Z.of_nat i + 1; li_Fields := row |} ] |})
       rows.

(** The state of the first loop: the [groups] map and the [groupOrder] slice. *)
Definition GroupState : Type := gmap string (list Row) * list string.

(** One iteration of [for _, row := range csvData.Rows]. *)
Definition addRow (groupByField : string) (st : GroupState) (row : Row) : GroupState :=
  let key := row !!! groupByField in
  let groupOrder :=
    if decide (is_Some (st.1 !! key)) then st.2 else st.2 ++ [key] in
  (<[key := default [] (st.1 !! key) ++ [row]]> st.1, groupOrder).

Definition collectGroups (groupByField : string) (rows : list Row) : GroupState :=
  foldl (addRow groupByField) (∅, []) rows.

(** The inner loop [for j, row := range rows], threading [lineItemCounter]. *)
Fixpoint numberLineItems (lineItemCounter : Z) (rows : list Row) : list LineItem * Z :=
  match rows with
  | [] => ([], lineItemCounter)
  | row :: rest =>
      let '(items, c) := numberLineItems (lineItemCounter + 1) rest in
      ({| li_ID := lineItemCounter; li_Fields := row |} :: items, c)
  end.

(** The outer loop [for i, key := range groupOrder]. *)
Fixpoint buildTransactions (groups : gmap string (list Row)) (i : Z)
    (lineItemCounter : Z) (groupOrder : list string) : list Transaction :=
  match groupOrder with
  | [] => []
  | key :: rest =>
      let '(items, c) := numberLineItems lineItemCounter (default [] (groups !! key)) in
      {| tx_ID := i + 1; tx_GroupKey := key; tx_LineItems := items |}
        :: buildTransactions groups (i + 1) c rest
  end.

Definition groupTransactions (groupByField : string) (rows : list Row) : list Transaction :=
  if decide (groupByField = "") then singletonTransactions rows
  else
    let '(groups, groupOrder) := collectGroups groupByField rows in
    buildTransactions groups 0 1 groupOrder.

(** *** The transformer *)

(** [func PadLeft(s string, length int, padChar rune) string] *)
Definition PadLeft (s : string) (length : Z) (padChar : Z) : string :=
  if gostring.len s >=? length then s
  else gostring.stringOfRunes (replicate (Z.to_nat (length - gostring.len s)) padChar) +:+ s.

(** [func PadRight(s string, length int, padChar rune) string] *)
Definition PadRight (s : string) (length : Z) (padChar : Z) : string :=
  if gostring.len s >=? length then s
  else s +:+ gostring.stringOfRunes (replicate (Z.to_nat (length - gostring.len s)) padChar).

(** [strings.TrimLeft(value, "0")] *)
Fixpoint trimLeftZeros (s : string) : string :=
  match s with
  | String "0" t => trimLeftZeros t
  | _ => s
  end.

(** The rune literals ['0'] and [' ']. *)
Definition rune_0 : Z := 48.
Definition rune_space : Z := 32.

(** The action kinds handed to the library as a whole. *)
Definition libraryKinds : list string :=
  [ "trim_left"; "trim_right"; "uppercase"; "title_case"; "replace";
    "regex_replace"; "format_number"; "format_date"; "extract_digits";
    "extract_letters"; "remove_special_chars"; "normalize_whitespace";
    "format_currency" ].

Section WithLibrary.
Context `{GoLibrary}.

(** [strconv.Atoi] with its error discarded ([start, _ := strconv.Atoi(..)]). *)
Definition atoiOrZero (s : string) : Z := default 0 (gostring.Atoi s).

(** The body of [case "substring"]. *)
Definition substringAction (value param : string) : string :=
  match gostring.Split param "," with
  | [p0; p1] =>
      let start := atoiOrZero (strings_TrimSpace p0) in
      let end_ := atoiOrZero (strings_TrimSpace p1) in
      let start := if start <? 0 then 0 else start in
      let end_ := if end_ >? gostring.len value then gostring.len value else end_ in
      if (start >=? end_) || (start >=? gostring.len value) then ""
      else gostring.slice value start end_
  | _ => value
  end.

(** The body of [case "ensure_length"]. *)
Definition ensureLength (value param : string) : string :=
  match gostring.Atoi param with
  | None => value
  | Some targetLength =>
      if targetLength <=? 0 then value
      else if gostring.len value >? targetLength then gostring.sliceTo value targetLength
      else PadLeft value targetLength rune_0
  end.

(** The bodies of [case "pad_zeros_to_length"] and [case "pad_spaces_to_length"]. *)
Definition padToLength (pad : string -> Z -> string) (value param : string) : string :=
  match gostring.Atoi param with
  | None => value
  | Some targetLength => if targetLength <=? 0 then value else pad value targetLength
  end.

(** [func ApplyTransformation(value string, action config.TransformationAction,
    allFields map[string]string) (string, error)]; the second component is
    [None] for a [nil] error. *)
Definition ApplyTransformation (value : string) (action : config.TransformationAction)
    (allFields : Row) : string * option string :=
  let kind := config.ta_Type action in
  let param := config.ta_Value action in
  if decide (kind = "prepend_string") then (param +:+ value, None)
  else if decide (kind = "append_string") then (value +:+ param, None)
  else if decide (kind = "trim") then (strings_TrimSpace value, None)
  else if decide (kind = "lowercase") then (strings_ToLower value, None)
  else if decide (kind = "substring") then (substringAction value param, None)
  else if decide (kind = "pad_zeros_to_length") then
    (padToLength (fun s n => PadLeft s n rune_0) value param, None)
  else if decide (kind = "pad_spaces_to_length") then
    (padToLength (fun s n => PadRight s n rune_space) value param, None)
  else if decide (kind = "ensure_length") then (ensureLength value param, None)
  else if decide (kind = "remove_leading_zeros") then
    (let result := trimLeftZeros value in
     if decide (result = "") then "0" else result, None)
  else if decide (kind = "lookup") then
    (default value (config.ta_LookupTable action !! value), None)
  else if decide (kind = "lookup_with_default") then
    (default param (config.ta_LookupTable action !! value), None)
  else if decide (kind = "conditional") then (value, None)
  else if decide (kind = "if_empty_use_default") then
    (if decide (strings_TrimSpace value = "") then param else value, None)
  else if decide (kind = "if_empty_use_field") then
    (if decide (strings_TrimSpace value = "") then default value (allFields !! param)
     else value, None)
  else if decide (kind = "format_policy_number") then (value, None)
  else if decide (kind = "format_account_code") then (value, None)
  else if decide (kind ∈ libraryKinds) then
    libraryTransformation kind value param (config.ta_Find action)
  else ("", Some ("unknown transformation type: " +:+ kind)).

End WithLibrary.

(** *** The transformer, continued *)

Section Transformer.
Context `{GoLibrary}.

(** The loop of [Transform] that finds the rule of a field: the first one
    whose [Field] is the name. *)
Definition findRule (rules : list config.TransformationRule) (fieldName : string)
    : option config.TransformationRule :=
  snd <$> list_find (fun rule => config.tr_Field rule = fieldName) rules.

(** The loop [for _, action := range rule.Actions] of [Transform]. *)
Fixpoint applyActions (result : string) (actions : list config.TransformationAction)
    (allFields : Row) : string * option string :=
  match actions with
  | [] => (result, None)
  | action :: rest =>
      match ApplyTransformation result action allFields with
      | (result, None) => applyActions result rest allFields
      | (_, Some err) =>
          ("", Some ("transformation '" +:+ config.ta_Type action +:+ "' failed: " +:+ err))
      end
  end.

(** [func (t *Transformer) Transform(fieldName, value string,
    allFields map[string]string) (string, error)] *)
Definition Transform (rules : list config.TransformationRule) (fieldName value : string)
    (allFields : Row) : string * option string :=
  match findRule rules fieldName with
  | None => (value, None)
  | Some rule => applyActions value (config.tr_Actions rule) allFields
  end.

(** [func (t *Transformer) TransformLineItem(lineItem *LineItem) error] with
    the entries of [lineItem.Fields] visited in the order [visit].  The map
    is updated in place, key by key, and is also what [Transform] receives
    as [allFields]; on an error the updates made so far stay. *)
Fixpoint TransformLineItemIn (rules : list config.TransformationRule)
    (fields : Row) (visit : list (string * string)) : Row * option string :=
  match visit with
  | [] => (fields, None)
  | (fieldName, value) :: rest =>
      match Transform rules fieldName value fields with
      | (transformedValue, None) =>
          TransformLineItemIn rules (<[fieldName := transformedValue]> fields) rest
      | (_, Some err) =>
          (fields, Some ("error transforming field '" +:+ fieldName +:+ "': " +:+ err))
      end
  end.

End Transformer.

(** *** The transformation step of [Converter.Run] *)

(** The helpers of [converter.go], as they are written: placeholders that
    return their argument or their default. *)
Definition parseIntOrDefault (s : string) (defaultValue : Z) : Z := defaultValue.
Definition toUpperCase (s : string) : string := s.
Definition toLowerCase (s : string) : string := s.
Definition trimSpace (s : string) : string := s.
Definition replaceString (s old new : string) : string := s.
Definition containsIgnoreCase (s substr : string) : bool := true.

(** [func padLeft(s string, length int, padChar rune) string] *)
Definition padLeft (s : string) (length : Z) (padChar : Z) : string :=
  if gostring.len s >=? length then s
  else gostring.stringOfRunes (replicate (Z.to_nat (length - gostring.len s)) padChar) +:+ s.

(** [func applyAction(value string, action config.TransformationAction)
    (string, error)] *)
Definition applyAction (value : string) (action : config.TransformationAction)
    : string * option string :=
  let kind := config.ta_Type action in
  if decide (kind = "prepend_string") then (config.ta_Value action +:+ value, None)
  else if decide (kind = "append_string") then (value +:+ config.ta_Value action, None)
  else if decide (kind = "pad_zeros_to_length") then
    let targetLength := parseIntOrDefault (config.ta_Value action) 0 in
    if targetLength <=? 0 then (value, None)
    else (padLeft value targetLength rune_0, None)
  else if decide (kind = "ensure_length") then
    let targetLength := parseIntOrDefault (config.ta_Value action) 0 in
    if targetLength <=? 0 then (value, None)
    else if gostring.len value >? targetLength
    then (gostring.sliceTo value targetLength, None)
    else (padLeft value targetLength rune_0, None)
  else if decide (kind = "uppercase") then (toUpperCase value, None)
  else if decide (kind = "lowercase") then (toLowerCase value, None)
  else if decide (kind = "trim") then (trimSpace value, None)
  else if decide (kind = "replace") then
    (replaceString value (config.ta_Find action) (config.ta_Value action), None)
  else if decide (kind = "lookup") then
    (default value (config.ta_LookupTable action !! value), None)
  else if decide (kind = "conditional") then (value, None)
  else (value, Some ("unknown transformation type: " +:+ kind)).

(** The loop [for _, action := range rule.Actions] of [applyTransformations]
    for the rule of [field]: the value after the actions, or the error
    returned for the first action that fails. *)
Fixpoint applyRuleActions (field value : string)
    (actions : list config.TransformationAction) : string * option string :=
  match actions with
  | [] => (value, None)
  | action :: rest =>
      match applyAction value action with
      | (value, None) => applyRuleActions field value rest
      | (value, Some err) =>
          (value, Some ("failed to apply " +:+ config.ta_Type action +:+ " to field "
                          +:+ field +:+ ": " +:+ err))
      end
  end.

(** The loop [for _, rule := range c.deptConfig.TransformationRules] on the
    field map of one line item; a rule whose field is absent is skipped. *)
Fixpoint applyRules (fields : Row) (rules : list config.TransformationRule)
    : Row * option string :=
  match rules with
  | [] => (fields, None)
  | rule :: rest =>
      match fields !! config.tr_Field rule with
      | None => applyRules fields rest
      | Some value =>
          match applyRuleActions (config.tr_Field rule) value (config.tr_Actions rule) with
          | (value, None) => applyRules (<[config.tr_Field rule := value]> fields) rest
          | (_, Some err) => (fields, Some err)
          end
      end
  end.

(** The loop [for i := range transaction.LineItems]. *)
Fixpoint transformLineItems (rules : list config.TransformationRule)
    (lineItems : list LineItem) : list LineItem * option string :=
  match lineItems with
  | [] => ([], None)
  | lineItem :: rest =>
      match applyRules (li_Fields lineItem) rules with
      | (fields, None) =>
          let '(rest', err) := transformLineItems rules rest in
          ({| li_ID := li_ID lineItem; li_Fields := fields |} :: rest', err)
      | (fields, Some err) =>
          ({| li_ID := li_ID lineItem; li_Fields := fields |} :: rest, Some err)
      end
  end.

(** [func (c *Converter) applyTransformations(transaction *Transaction) error]:
    the transaction as the call leaves it, and the error. *)
Definition applyTransformations (rules : list config.TransformationRule)
    (transaction : Transaction) : Transaction * option string :=
  let '(lineItems, err) := transformLineItems rules (tx_LineItems transaction) in
  ({| tx_ID := tx_ID transaction; tx_GroupKey := tx_GroupKey transaction;
      tx_LineItems := lineItems |},
   err).

(** *** Specification vocabulary for grouping *)

(** The group key of a record: a record without the field has the key [""]. *)
Definition keyOf (groupByField : string) (row : Row) : string := row !!! groupByField.

(** The distinct values of a list in order of first appearance. *)
Fixpoint firstOccurrences (l : list string) : list string :=
  match l with
  | [] => []
  | x :: l' => x :: filter (fun y => y ≠ x) (firstOccurrences l')
  end.

(** The records of a group, in input order. *)
Definition recordsOf (groupByField key : string) (rows : list Row) : list Row :=
  filter (fun row => keyOf groupByField row = key) rows.

End converter.

(* ===================================================================== *)
(** ** Package [validation]                                               *)
(* ===================================================================== *)

Module validation.

Import xlsxparser converter.

(** [type ValidationError struct] *)
Record ValidationError := mkValidationError {
  ve_Severity : string;
  ve_Field : string;
  ve_Value : string;
  ve_Rule : string;
  ve_Message : string;
  ve_TransactionID : Z;
  ve_LineItemID : Z
}.

(** [type ValidationContext struct], handed to a custom validator. *)
Record ValidationContext := mkValidationContext {
  vc_FieldName : string;
  vc_FieldMapping : FieldMapping;
  vc_Transaction : Transaction;
  vc_LineItem : LineItem;
  vc_AllFields : Row
}.

(** [type ValidationOptions struct] *)
Record ValidationOptions := mkValidationOptions {
  vo_StopOnFirstError : bool;
  vo_TreatWarningsAsErrors : bool;
  vo_SkipOptionalValidation : bool;
  vo_CustomValidators : gmap string (string -> ValidationContext -> string)
}.

Definition DefaultValidationOptions : ValidationOptions :=
  {| vo_StopOnFirstError := false;
     vo_TreatWarningsAsErrors := false;
     vo_SkipOptionalValidation := false;
     vo_CustomValidators := ∅ |}.

(** [type Validator struct { schema; options }] *)
Record Validator := mkValidator {
  v_schema : Schema;
  v_options : ValidationOptions
}.

Definition NewValidator (schema : Schema) : Validator :=
  {| v_schema := schema; v_options := DefaultValidationOptions |}.

(** The seven patterns of [evaluateCondition], in the order they are tried. *)
Definition pattern_eq : string := "(\w+)\s*==\s*'([^']*)'".
Definition pattern_ne : string := "(\w+)\s*!=\s*'([^']*)'".
Definition pattern_gt : string := "(\w+)\s*>\s*(\d+(?:\.\d+)?)".
Definition pattern_lt : string := "(\w+)\s*<\s*(\d+(?:\.\d+)?)".
Definition pattern_starts_with : string := "(\w+)\s+starts_with\s+'([^']*)'".
Definition pattern_is_empty : string := "(\w+)\s+is_empty".
Definition pattern_is_not_empty : string := "(\w+)\s+is_not_empty".

Definition conditionPatterns : list string :=
  [ pattern_eq; pattern_ne; pattern_gt; pattern_lt; pattern_starts_with;
    pattern_is_empty; pattern_is_not_empty ].

(** The date layouts [validateDate] tries when the type names none. *)
Definition commonDateFormats : list string :=
  [ "2006-01-02"; "01/02/2006"; "02/01/2006"; "2006/01/02"; "Jan 2, 2006";
    "January 2, 2006"; "20060102" ].

Definition validBooleanValues : list string :=
  [ "true"; "false"; "yes"; "no"; "1"; "0"; "y"; "n"; "t"; "f" ].

(** [func extractParenthesesContent(s string) string] *)
Definition extractParenthesesContent (s : string) : string :=
  let start := gostring.Index s "(" in
  let end_ := gostring.Index s ")" in
  if negb (start =? -1) && negb (end_ =? -1) && (end_ >? start)
  then gostring.slice s (start + 1) end_
  else "".

Section WithLibrary.
Context `{GoLibrary}.

(** [func evaluateCondition(rule string, fields map[string]string) bool];
    [len(matches) == 3] (or [2]) is the shape of the list. *)
Definition evaluateCondition (rule : string) (fields : Row) : bool :=
  let rule := gostring.TrimPrefix rule "if " in
  let rule := strings_TrimSpace rule in
  match regexp_FindStringSubmatch pattern_eq rule with
  | [_; fieldName; expectedValue] =>
      bool_decide (fields !!! fieldName = expectedValue)
  | _ =>
  match regexp_FindStringSubmatch pattern_ne rule with
  | [_; fieldName; expectedValue] =>
      bool_decide (fields !!! fieldName ≠ expectedValue)
  | _ =>
  match regexp_FindStringSubmatch pattern_gt rule with
  | [_; fieldName; number] =>
      let threshold := (strconv_ParseFloat number).1 in
      let actualValue := (strconv_ParseFloat (fields !!! fieldName)).1 in
      float64_gt actualValue threshold
  | _ =>
  match regexp_FindStringSubmatch pattern_lt rule with
  | [_; fieldName; number] =>
      let threshold := (strconv_ParseFloat number).1 in
      let actualValue := (strconv_ParseFloat (fields !!! fieldName)).1 in
      float64_lt actualValue threshold
  | _ =>
  match regexp_FindStringSubmatch pattern_starts_with rule with
  | [_; fieldName; prefix] =>
      gostring.HasPrefix (fields !!! fieldName) prefix
  | _ =>
  match regexp_FindStringSubmatch pattern_is_empty rule with
  | [_; fieldName] => bool_decide (fields !!! fieldName = "")
  | _ =>
  match regexp_FindStringSubmatch pattern_is_not_empty rule with
  | [_; fieldName] => bool_decide (fields !!! fieldName ≠ "")
  | _ => false
  end end end end end end end.

(** [func validateNumeric(value string) string] *)
Definition validateNumeric (value : string) : string :=
  let value := strings_TrimSpace value in
  if decide (value = "") then ""
  else if strconv_ParseInt_ok value then ""
  else "Value '" +:+ value +:+ "' is not a valid integer".

(** [func validateDecimal(value, dataType string) string] *)
Definition validateDecimal (value dataType : string) : string :=
  let value := strings_TrimSpace value in
  if decide (value = "") then ""
  else if negb (strconv_ParseFloat value).2 then
    "Value '" +:+ value +:+ "' is not a valid decimal number"
  else if gostring.Contains dataType "(" then
    let precisionStr := extractParenthesesContent dataType in
    if decide (precisionStr = "") then ""
    else
      match gostring.Atoi precisionStr with
      | Some precision =>
          if (precision >=? 0) && gostring.Contains value "." then
            match gostring.Split value "." with
            | [_; frac] =>
                if gostring.len frac >? precision then
                  "Value '" +:+ value +:+ "' has more than " +:+ pretty precision
                    +:+ " decimal places"
                else ""
            | _ => ""
            end
          else ""
      | None => ""
      end
  else "".

(** [func validateAlphanumeric(value string) string] *)
Definition validateAlphanumeric (value : string) : string :=
  if forallb (fun r => unicode_IsLetter r || unicode_IsDigit r || unicode_IsSpace r)
             (gostring.runes value)
  then "" else "Value '" +:+ value +:+ "' contains non-alphanumeric characters".

(** [func validateAlpha(value string) string] *)
Definition validateAlpha (value : string) : string :=
  if forallb (fun r => unicode_IsLetter r || unicode_IsSpace r) (gostring.runes value)
  then "" else "Value '" +:+ value +:+ "' contains non-alphabetic characters".

(** [func validateDate(value, dataType string) string] *)
Definition validateDate (value dataType : string) : string :=
  let value := strings_TrimSpace value in
  if decide (value = "") then ""
  else
    let format := extractParenthesesContent dataType in
    if decide (format = "") then
      if existsb (fun f => time_Parse_ok f value) commonDateFormats then ""
      else "Value '" +:+ value +:+ "' is not a valid date"
    else if time_Parse_ok format value then ""
    else "Value '" +:+ value +:+ "' does not match date format '" +:+ format +:+ "'".

(** [func validateBoolean(value string) string] *)
Definition validateBoolean (value : string) : string :=
  let value := strings_ToLower (strings_TrimSpace value) in
  if existsb (fun v => bool_decide (value = v)) validBooleanValues then ""
  else "Value '" +:+ value +:+ "' is not a valid boolean".

(** [func validateDataType(value, dataType string) string] *)
Definition validateDataType (value dataType : string) : string :=
  if decide (dataType = "string" \/ dataType = "") then ""
  else if decide (dataType = "numeric") then validateNumeric value
  else if gostring.HasPrefix dataType "decimal" then validateDecimal value dataType
  else if decide (dataType = "alphanumeric") then validateAlphanumeric value
  else if decide (dataType = "alpha") then validateAlpha value
  else if gostring.HasPrefix dataType "date" then validateDate value dataType
  else if decide (dataType = "boolean") then validateBoolean value
  else "".

(** The finding appended by [ValidateField] for a rule and a message. *)
Definition fieldError (value : string) (mapping : FieldMapping)
    (transaction : Transaction) (lineItem : LineItem) (rule message : string)
    : ValidationError :=
  {| ve_Severity := "error";
     ve_Field := fm_OldHeader mapping;
     ve_Value := value;
     ve_Rule := rule;
     ve_Message := message;
     ve_TransactionID := tx_ID transaction;
     ve_LineItemID := li_ID lineItem |}.

(** [func (v *Validator) ValidateField(value, mapping, transaction, lineItem)
    []*ValidationError]; [errors] is threaded through the four checks. *)
Definition ValidateField (value : string) (mapping : FieldMapping)
    (transaction : Transaction) (lineItem : LineItem) : list ValidationError :=
  let errors : list ValidationError := [] in
  if decide (fm_RequiredType mapping = "required" /\ value = "") then
    errors ++ [ fieldError value mapping transaction lineItem "required"
                  ("Required field '" +:+ fm_XMLTag mapping +:+ "' is empty") ]
  else if decide (value = "") then errors
  else
    let errors :=
      if decide (fm_RequiredType mapping = "conditional"
                 /\ fm_ConditionalRule mapping ≠ "") then
        let isRequired := evaluateCondition (fm_ConditionalRule mapping) (li_Fields lineItem) in
        if isRequired && bool_decide (value = "") then
          errors ++ [ fieldError value mapping transaction lineItem "conditional_required"
                        ("Field '" +:+ fm_XMLTag mapping +:+ "' is required when: "
                           +:+ fm_ConditionalRule mapping) ]
        else errors
      else errors in
    let errors :=
      if (fm_MaxLength mapping >? 0) && (gostring.len value >? fm_MaxLength mapping) then
        errors ++ [ fieldError value mapping transaction lineItem "max_length"
                      ("Value exceeds maximum length of " +:+ pretty (fm_MaxLength mapping)
                         +:+ " characters (actual: " +:+ pretty (gostring.len value) +:+ ")") ]
      else errors in
    let typeError := validateDataType value (fm_DataType mapping) in
    if decide (typeError ≠ "") then
      errors ++ [ fieldError value mapping transaction lineItem "data_type" typeError ]
    else errors.

(** One iteration of [for fieldName, value := range lineItem.Fields]. *)
Definition validateEntry (v : Validator) (transaction : Transaction)
    (lineItem : LineItem) (errors : list ValidationError)
    (entry : string * string) : list ValidationError :=
  let '(fieldName, value) := entry in
  match GetFieldMapping (v_schema v) fieldName with
  | None => errors
  | Some mapping =>
      if vo_SkipOptionalValidation (v_options v)
         && bool_decide (fm_RequiredType mapping = "optional")
      then errors
      else
        let errors := errors ++ ValidateField value mapping transaction lineItem in
        match vo_CustomValidators (v_options v) !! fieldName with
        | Some customValidator =>
            let context :=
              {| vc_FieldName := fieldName; vc_FieldMapping := mapping;
                 vc_Transaction := transaction; vc_LineItem := lineItem;
                 vc_AllFields := li_Fields lineItem |} in
            let errMsg := customValidator value context in
            if decide (errMsg ≠ "") then
              errors ++ [ {| ve_Severity := "error"; ve_Field := fieldName;
                             ve_Value := value; ve_Rule := "custom";
                             ve_Message := errMsg;
                             ve_TransactionID := tx_ID transaction;
                             ve_LineItemID := li_ID lineItem |} ]
            else errors
        | None => errors
        end
  end.

(** [ValidateLineItem] run with the entries of [lineItem.Fields] visited in
    the order [visit]: Go leaves the iteration order of a map unspecified. *)
Definition ValidateLineItemIn (v : Validator) (transaction : Transaction)
    (lineItem : LineItem) (visit : list (string * string)) : list ValidationError :=
  foldl (validateEntry v transaction lineItem) [] visit.

(** The visiting orders Go may choose: every entry of the map exactly once. *)
Definition visitOrder (fields : Row) (visit : list (string * string)) : Prop :=
  Permutation visit (map_to_list fields).

(** [func (v *Validator) ValidateLineItem(transaction, lineItem) []*ValidationError]
    for one fixed visiting order. *)
Definition ValidateLineItem (v : Validator) (transaction : Transaction)
    (lineItem : LineItem) : list ValidationError :=
  ValidateLineItemIn v transaction lineItem (map_to_list (li_Fields lineItem)).

(** [func (v *Validator) ValidateTransaction(transaction) []*ValidationError] *)
Definition ValidateTransaction (v : Validator) (transaction : Transaction)
    : list ValidationError :=
  foldl (fun errors lineItem => errors ++ ValidateLineItem v transaction lineItem)
        [] (tx_LineItems transaction).

(** *** Specification vocabulary for field validation *)

(** The findings for a value that is not empty: the length check and the
    type check, nothing else. *)
Definition nonEmptyFindings (value : string) (mapping : FieldMapping)
    (transaction : Transaction) (lineItem : LineItem) : list ValidationError :=
  (if (fm_MaxLength mapping >? 0) && (gostring.len value >? fm_MaxLength mapping)
   then [ fieldError value mapping transaction lineItem "max_length"
            ("Value exceeds maximum length of " +:+ pretty (fm_MaxLength mapping)
               +:+ " characters (actual: " +:+ pretty (gostring.len value) +:+ ")") ]
   else [])
  ++ (if decide (validateDataType value (fm_DataType mapping) <> "")
      then [ fieldError value mapping transaction lineItem "data_type"
               (validateDataType value (fm_DataType mapping)) ]
      else []).

End WithLibrary.

(** [type ValidationResult struct] *)
Record ValidationResult := mkValidationResult {
  vr_IsValid : bool;
  vr_Errors : list ValidationError;
  vr_ErrorCount : Z;
  vr_WarningCount : Z;
  vr_FieldsValidated : Z;
  vr_TransactionsValidated : Z
}.

(** The body of the loop [for _, err := range transactionErrors] of
    [ValidateAll]: the result with the finding counted, and whether the
    function returns at once. *)
Definition countFinding (options : ValidationOptions) (result : ValidationResult)
    (err : ValidationError) : ValidationResult * bool :=
  if decide (ve_Severity err = "error") then
    ({| vr_IsValid := false;
        vr_Errors := vr_Errors result ++ [err];
        vr_ErrorCount := vr_ErrorCount result + 1;
        vr_WarningCount := vr_WarningCount result;
        vr_FieldsValidated := vr_FieldsValidated result;
        vr_TransactionsValidated := vr_TransactionsValidated result |},
     vo_StopOnFirstError options)
  else
    ({| vr_IsValid :=
          if vo_TreatWarningsAsErrors options then false else vr_IsValid result;
        vr_Errors := vr_Errors result ++ [err];
        vr_ErrorCount := vr_ErrorCount result;
        vr_WarningCount := vr_WarningCount result + 1;
        vr_FieldsValidated := vr_FieldsValidated result;
        vr_TransactionsValidated := vr_TransactionsValidated result |},
     false).

(** The inner loop over the findings of one transaction. *)
Fixpoint countFindings (options : ValidationOptions) (result : ValidationResult)
    (transactionErrors : list ValidationError) : ValidationResult * bool :=
  match transactionErrors with
  | [] => (result, false)
  | err :: rest =>
      match countFinding options result err with
      | (result, true) => (result, true)
      | (result, false) => countFindings options result rest
      end
  end.

(** The outer loop [for i := range transactions], over the findings of
    each transaction. *)
Fixpoint collectFindings (options : ValidationOptions) (result : ValidationResult)
    (findings : list (list ValidationError)) : ValidationResult :=
  match findings with
  | [] => result
  | transactionErrors :: rest =>
      match countFindings options result transactionErrors with
      | (result, true) => result
      | (result, false) => collectFindings options result rest
      end
  end.

(** The result [ValidateAll] starts from. *)
Definition initialResult (transactionsValidated : Z) : ValidationResult :=
  {| vr_IsValid := true; vr_Errors := []; vr_ErrorCount := 0; vr_WarningCount := 0;
     vr_FieldsValidated := 0; vr_TransactionsValidated := transactionsValidated |}.

Section ValidateAll.
Context `{GoLibrary}.

(** [func (v *Validator) ValidateAll(transactions []converter.Transaction)
    *ValidationResult] *)
Definition ValidateAll (v : Validator) (transactions : list Transaction)
    : ValidationResult :=
  collectFindings (v_options v) (initialResult (Z.of_nat (length transactions)))
                  (map (ValidateTransaction v) transactions).

(** [func Validate(transactions []converter.Transaction, schema *xlsxparser.Schema)
    []*ValidationError] *)
Definition Validate (transactions : list Transaction) (schema : Schema)
    : list ValidationError :=
  vr_Errors (ValidateAll (NewValidator schema) transactions).

End ValidateAll.

End validation.

(* ===================================================================== *)
(** ** Package [xmlwriter]: document assembly and serialisation           *)
(* ===================================================================== *)

Module xmlwriter.

Import config xlsxparser converter.

(** [type GenerateOptions struct] *)
Record GenerateOptions := mkGenerateOptions {
  go_Indent : string;
  go_IncludeXMLDeclaration : bool;
  go_XMLVersion : string;
  go_Encoding : string;
  go_RootAttributes : gmap string string;
  go_LineItemNumberingGlobal : bool;
  go_TransactionIndexAttribute : string;
  go_LineItemIndexAttribute : string
}.

Definition DefaultGenerateOptions : GenerateOptions :=
  {| go_Indent := "  ";
     go_IncludeXMLDeclaration := true;
     go_XMLVersion := "1.0";
     go_Encoding := "UTF-8";
     go_RootAttributes := ∅;
     go_LineItemNumberingGlobal := true;
     go_TransactionIndexAttribute := "n";
     go_LineItemIndexAttribute := "n" |}.

(** [type XMLElement struct { XMLName; Attributes; Value; Children }];
    an attribute is its name and its value. *)
#[local] Unset Elimination Schemes.
Inductive XMLElement : Type :=
  mkXMLElement (XMLName : string) (Attributes : list (string * string))
               (Value : string) (Children : list XMLElement).
#[local] Set Elimination Schemes.

Definition XMLName (e : XMLElement) : string :=
  match e with mkXMLElement n _ _ _ => n end.
Definition Attributes (e : XMLElement) : list (string * string) :=
  match e with mkXMLElement _ a _ _ => a end.
Definition Value (e : XMLElement) : string :=
  match e with mkXMLElement _ _ v _ => v end.
Definition Children (e : XMLElement) : list XMLElement :=
  match e with mkXMLElement _ _ _ c => c end.

(** [type XMLDocument struct]; only [XMLElement]s are ever appended to
    [Children]. *)
Record XMLDocument := mkXMLDocument {
  doc_XMLName : string;
  doc_Attributes : list (string * string);
  doc_Children : list XMLElement
}.

(** [func createSimpleElement(name, value string) XMLElement] *)
Definition createSimpleElement (name value : string) : XMLElement :=
  mkXMLElement name [] value [].

(** The line feed written after every tag. *)
Definition newline : string := String (ascii_of_nat 10) EmptyString.

(** The replacement written for one rune by the [switch] of [escapeXML]:
    [buffer.WriteString] of an entity, or [buffer.WriteRune(r)]. *)
Definition escapeRune (r : Z) : string :=
  if r =? 38 then "&amp;"
  else if r =? 60 then "&lt;"
  else if r =? 62 then "&gt;"
  else if r =? 34 then "&quot;"
  else if r =? 39 then "&apos;"
  else gostring.stringOfRunes [r].

(** [func escapeXML(s string) string] *)
Definition escapeXML (s : string) : string :=
  foldl (fun buffer r => buffer +:+ escapeRune r) "" (gostring.runes s).

(** [fmt.Sprintf(" %s=\"%s\"", attr.Name.Local, escapeXML(attr.Value))] *)
Definition writeAttribute (buffer : string) (attr : string * string) : string :=
  buffer +:+ " " +:+ attr.1 +:+ "=" +:+ String (ascii_of_nat 34) EmptyString
         +:+ escapeXML attr.2 +:+ String (ascii_of_nat 34) EmptyString.

(** [for i := 0; i < level; i++ { buffer.WriteString(indent) }] *)
Fixpoint writeIndent (buffer indent : string) (level : nat) : string :=
  match level with
  | O => buffer
  | S n => writeIndent (buffer +:+ indent) indent n
  end.

(** [func writeElement(buffer *bytes.Buffer, element XMLElement, indent string,
    level int)]: the buffer after the element is written. *)
Fixpoint writeElement (buffer : string) (element : XMLElement) (indent : string)
    (level : nat) : string :=
  match element with
  | mkXMLElement name attributes value children =>
      let buffer := writeIndent buffer indent level in
      let buffer := buffer +:+ "<" +:+ name in
      let buffer := foldl writeAttribute buffer attributes in
      match children, value with
      | [], EmptyString => buffer +:+ "/>" +:+ newline
      | _, _ =>
          let buffer := buffer +:+ ">" in
          let buffer :=
            if decide (value ≠ "") then buffer +:+ escapeXML value
            else
              let buffer := buffer +:+ newline in
              let buffer :=
                foldl (fun b child => writeElement b child indent (S level)) buffer children in
              writeIndent buffer indent level in
          buffer +:+ "</" +:+ name +:+ ">" +:+ newline
      end
  end.

(** [func marshalWithIndent(doc *XMLDocument, indent string) ([]byte, error)];
    the error is always [nil]. *)
Definition marshalWithIndent (doc : XMLDocument) (indent : string) : string :=
  let buffer := "<" +:+ doc_XMLName doc in
  let buffer := foldl writeAttribute buffer (doc_Attributes doc) in
  let buffer := buffer +:+ ">" +:+ newline in
  let buffer := foldl (fun b child => writeElement b child indent 1) buffer (doc_Children doc) in
  buffer +:+ "</" +:+ doc_XMLName doc +:+ ">" +:+ newline.

Section WithLibrary.
Context `{GoLibrary}.

(** The loop [for _, staticField := range deptConfig.StaticFields] that
    appends the static fields of one level to [children]. *)
Definition addStaticFields (level : string) (children : list XMLElement)
    (staticFields : list StaticField) : list XMLElement :=
  foldl (fun children staticField =>
           if decide (strings_ToLower (sf_ParentTag staticField) = level)
           then children ++ [createSimpleElement (sf_XMLTag staticField) (sf_Value staticField)]
           else children)
        children staticFields.

(** The comparison handed to [sort.Slice] by [getOrderedFields]. *)
Definition orderLess (schema : Schema) (a b : string) : bool :=
  match GetFieldMapping schema a, GetFieldMapping schema b with
  | Some mappingI, Some mappingJ => fm_Order mappingI <? fm_Order mappingJ
  | _, _ => false
  end.

(** [func getOrderedFields(fields []string, schema *xlsxparser.Schema) []string] *)
Definition getOrderedFields (fields : list string) (schema : Schema) : list string :=
  sort_Slice (orderLess schema) fields.

(** The loop [for _, oldHeader := range fields] shared by the transaction
    and the line-item builder: the schema fields read from [values]. *)
Definition addSchemaFields (schema : Schema) (values : Row)
    (children : list XMLElement) (fields : list string) : list XMLElement :=
  foldl (fun children oldHeader =>
           match GetFieldMapping schema oldHeader with
           | None => children
           | Some mapping =>
               let value := values !!! oldHeader in
               if decide (value ≠ "" \/ fm_RequiredType mapping = "required")
               then children ++ [createSimpleElement (fm_XMLTag mapping) value]
               else children
           end)
        children fields.

(** [func buildLineItemElement(lineItem, schema, deptConfig, options,
    globalLineItemIndex *int) XMLElement]; the counter is only read. *)
Definition buildLineItemElement (lineItem : LineItem) (schema : Schema)
    (staticFields : list StaticField) (options : GenerateOptions)
    (globalLineItemIndex : Z) : XMLElement :=
  let index :=
    if go_LineItemNumberingGlobal options then globalLineItemIndex else li_ID lineItem in
  let children := addStaticFields "lineitem" [] staticFields in
  let lineItemFields := getOrderedFields (sc_LineItemFields schema) schema in
  let children := addSchemaFields schema (li_Fields lineItem) children lineItemFields in
  mkXMLElement (sc_XMLLineItemElement schema)
               [(go_LineItemIndexAttribute options, pretty index)] "" children.

(** The loop [for _, lineItem := range transaction.LineItems] of
    [buildTransactionElement]: the children so far and the counter. *)
Definition addLineItems (schema : Schema) (staticFields : list StaticField)
    (options : GenerateOptions) (st : list XMLElement * Z)
    (lineItems : list LineItem) : list XMLElement * Z :=
  foldl (fun st lineItem =>
           let '(children, globalLineItemIndex) := st in
           let lineItemElement :=
             buildLineItemElement lineItem schema staticFields options globalLineItemIndex in
           (children ++ [lineItemElement],
            if go_LineItemNumberingGlobal options
            then globalLineItemIndex + 1 else globalLineItemIndex))
        st lineItems.

(** [func buildTransactionElement(transaction, schema, deptConfig, options,
    globalLineItemIndex *int) XMLElement], returning the counter as well. *)
Definition buildTransactionElement (transaction : Transaction) (schema : Schema)
    (staticFields : list StaticField) (options : GenerateOptions)
    (globalLineItemIndex : Z) : XMLElement * Z :=
  let children := addStaticFields "transaction" [] staticFields in
  let children :=
    match tx_LineItems transaction with
    | firstLineItem :: _ =>
        let transactionFields := getOrderedFields (sc_TransactionFields schema) schema in
        addSchemaFields schema (li_Fields firstLineItem) children transactionFields
    | [] => children
    end in
  let '(children, globalLineItemIndex) :=
    addLineItems schema staticFields options (children, globalLineItemIndex)
                 (tx_LineItems transaction) in
  (mkXMLElement (sc_XMLTransactionElement schema)
                [(go_TransactionIndexAttribute options, pretty (tx_ID transaction))]
                "" children,
   globalLineItemIndex).

(** [func buildDocument(transactions, schema, deptConfig, options) *XMLDocument];
    the root attributes come in the order the map hands them out. *)
Definition buildDocument (transactions : list Transaction) (schema : Schema)
    (staticFields : list StaticField) (options : GenerateOptions) : XMLDocument :=
  let children := addStaticFields "cashbook" [] staticFields in
  let '(children, _) :=
    foldl (fun st transaction =>
             let '(children, globalLineItemIndex) := st in
             let '(transactionElement, globalLineItemIndex) :=
               buildTransactionElement transaction schema staticFields options
                                       globalLineItemIndex in
             (children ++ [transactionElement], globalLineItemIndex))
          (children, 1) transactions in
  {| doc_XMLName := sc_XMLRootElement schema;
     doc_Attributes := map_to_list (go_RootAttributes options);
     doc_Children := children |}.

(** [func GenerateWithOptions(transactions, schema, deptConfig, options)
    ([]byte, error)]; the error is always [nil]. *)
Definition GenerateWithOptions (transactions : list Transaction) (schema : Schema)
    (staticFields : list StaticField) (options : GenerateOptions) : string :=
  let buffer :=
    if go_IncludeXMLDeclaration options then
      "<?xml version=" +:+ String (ascii_of_nat 34) EmptyString +:+ go_XMLVersion options
        +:+ String (ascii_of_nat 34) EmptyString +:+ " encoding="
        +:+ String (ascii_of_nat 34) EmptyString +:+ go_Encoding options
        +:+ String (ascii_of_nat 34) EmptyString +:+ "?>" +:+ newline
    else "" in
  buffer +:+ marshalWithIndent (buildDocument transactions schema staticFields options)
                               (go_Indent options).

(** [func Generate(transactions, schema, deptConfig) ([]byte, error)] *)
Definition Generate (transactions : list Transaction) (schema : Schema)
    (staticFields : list StaticField) : string :=
  GenerateWithOptions transactions schema staticFields DefaultGenerateOptions.

(** *** Specification vocabulary for the assembly *)

(** The static fields of one level, in configuration order. *)
Definition staticElements (level : string) (staticFields : list StaticField)
    : list XMLElement :=
  map (fun sf => createSimpleElement (sf_XMLTag sf) (sf_Value sf))
      (filter (fun sf => strings_ToLower (sf_ParentTag sf) = level) staticFields).

End WithLibrary.

(** A schema field is emitted when it has a mapping and its value is not
    empty or the mapping says [required]. *)
Definition emitted (schema : Schema) (values : Row) (oldHeader : string) : Prop :=
  exists mapping,
    GetFieldMapping schema oldHeader = Some mapping
    /\ (values !!! oldHeader <> "" \/ fm_RequiredType mapping = "required").

#[export] Instance emitted_dec schema values oldHeader :
  Decision (emitted schema values oldHeader).
Proof.
  unfold emitted. destruct (GetFieldMapping schema oldHeader) as [m|].
  - destruct (decide (values !!! oldHeader <> "" \/ fm_RequiredType m = "required")).
    + left. eauto.
    + right. intros (m' & [= <-] & ?). done.
  - right. intros (m' & [=] & ?).
Defined.

(** The element written for a schema field: its XML tag around its value. *)
Definition fieldElement (schema : Schema) (values : Row) (oldHeader : string)
    : XMLElement :=
  createSimpleElement
    (default "" (fm_XMLTag <$> GetFieldMapping schema oldHeader))
    (values !!! oldHeader).

(** The index attribute each line item of a transaction receives when the
    counter stands at [c], and the counter after the transaction. *)
Definition indicesFrom (options : GenerateOptions) (c : Z) (lineItems : list LineItem)
    : list Z :=
  if go_LineItemNumberingGlobal options
  then seqZ c (Z.of_nat (length lineItems))
  else map li_ID lineItems.

Definition counterAfter (options : GenerateOptions) (c : Z) (lineItems : list LineItem) : Z :=
  if go_LineItemNumberingGlobal options then c + Z.of_nat (length lineItems) else c.

(** The index attributes of a whole document, given the counter [c] at the
    first transaction. *)
Fixpoint documentIndicesFrom (options : GenerateOptions) (c : Z)
    (transactions : list Transaction) : list (list Z) :=
  match transactions with
  | [] => []
  | tx :: rest =>
      indicesFrom options c (tx_LineItems tx)
        :: documentIndicesFrom options (counterAfter options c (tx_LineItems tx)) rest
  end.

(** *** Reading the index attributes back from a document *)

(** Field elements carry no attribute; the only children with attributes
    are the line items of a transaction and the transactions of a document. *)
Definition attributeValues (elements : list XMLElement) : list string :=
  flat_map (fun e => map snd (Attributes e)) elements.

(** The index attributes of the line items of one transaction element. *)
Definition lineItemIndices (transactionElement : XMLElement) : list string :=
  attributeValues (Children transactionElement).

(** The line-item index attributes of a document, transaction by
    transaction, in document order. *)
Definition documentLineItemIndices (doc : XMLDocument) : list (list string) :=
  map lineItemIndices (filter (fun e => Attributes e ≠ []) (doc_Children doc)).

(** *** The inverse of escaping *)

(** Replaces the five entity references by the characters they stand for
    and copies every other byte; [skip] counts the bytes of an entity
    still to be passed over. *)
Fixpoint unescapeFrom (skip : nat) (s : string) : string :=
  match s with
  | EmptyString => EmptyString
  | String c t =>
      match skip with
      | S k => unescapeFrom k t
      | O =>
          if String.prefix "&amp;" s then String "&" (unescapeFrom 4 t)
          else if String.prefix "&lt;" s then String "<" (unescapeFrom 3 t)
          else if String.prefix "&gt;" s then String ">" (unescapeFrom 3 t)
          else if String.prefix "&quot;" s then String (ascii_of_nat 34) (unescapeFrom 5 t)
          else if String.prefix "&apos;" s then String "'" (unescapeFrom 5 t)
          else String c (unescapeFrom 0 t)
      end
  end.

Definition unescapeXML (s : string) : string := unescapeFrom 0 s.

(** Escaping byte by byte: each of the five reserved characters becomes its
    entity reference, every other byte stays. *)
Definition escapeByte (c : ascii) : string :=
  if Ascii.eqb c "&" then "&amp;"
  else if Ascii.eqb c "<" then "&lt;"
  else if Ascii.eqb c ">" then "&gt;"
  else if Ascii.eqb c (ascii_of_nat 34) then "&quot;"
  else if Ascii.eqb c "'" then "&apos;"
  else String c EmptyString.

Fixpoint escapeBytes (s : string) : string :=
  match s with
  | EmptyString => EmptyString
  | String c t => escapeByte c +:+ escapeBytes t
  end.

End xmlwriter.

(* ===================================================================== *)
(** ** A reference implementation of the library interface                *)
(* ===================================================================== *)

(** An executable [GoLibrary] that agrees with Go on ASCII text, plain
    decimal numbers and numeric date layouts.  It serves to run the
    embedding on concrete inputs; no general statement depends on it. *)
Module reference.

Definition isSpaceByte (c : ascii) : bool :=
  let n := gostring.byteZ c in gostring.inRange 9 13 n || (n =? 32).
Definition isDigitByte (c : ascii) : bool := gostring.inRange 48 57 (gostring.byteZ c).
Definition isLetterByte (c : ascii) : bool :=
  let n := gostring.byteZ c in gostring.inRange 65 90 n || gostring.inRange 97 122 n.
Definition isWordByte (c : ascii) : bool :=
  isLetterByte c || isDigitByte c || Ascii.eqb c "_".
(** The class [\s] of a regular expression: tab, line feed, form feed,
    carriage return and space (no vertical tab). *)
Definition isPerlSpace (c : ascii) : bool :=
  let n := gostring.byteZ c in (n =? 9) || (n =? 10) || (n =? 12) || (n =? 13) || (n =? 32).

Fixpoint trimLeft (s : string) : string :=
  match s with
  | String c t => if isSpaceByte c then trimLeft t else s
  | EmptyString => s
  end.

(** Drops the trailing white space: a cell is kept while something other
    than white space follows it. *)
Fixpoint trimRight (s : string) : string :=
  match s with
  | EmptyString => EmptyString
  | String c t =>
      match trimRight t with
      | EmptyString => if isSpaceByte c then EmptyString else String c EmptyString
      | t' => String c t'
      end
  end.

Definition TrimSpace (s : string) : string := trimRight (trimLeft s).

Definition lowerByte (c : ascii) : ascii :=
  let n := gostring.byteZ c in
  if gostring.inRange 65 90 n then gostring.byteOf (n + 32) else c.
Definition upperByte (c : ascii) : ascii :=
  let n := gostring.byteZ c in
  if gostring.inRange 97 122 n then gostring.byteOf (n - 32) else c.

Fixpoint mapBytes (f : ascii -> ascii) (s : string) : string :=
  match s with
  | EmptyString => EmptyString
  | String c t => String (f c) (mapBytes f t)
  end.

(** Decimal numbers [digits] or [digits.digits] with an optional sign, as
    exact rationals [numerator / 10 ^ scale], kept as the pair. *)
Definition Decimal : Type := Z * nat.

Definition parseDecimal (s : string) : option Decimal :=
  let '(sign, body) :=
    match s with
    | String "-" t => (-1, t)
    | String "+" t => (1, t)
    | _ => (1, s)
    end in
  match gostring.Split body "." with
  | [int] =>
      match int with
      | EmptyString => None
      | _ => n ← gostring.parseDigits 0 int; Some (sign * n, O)
      end
  | [int; frac] =>
      match int, frac with
      | EmptyString, EmptyString => None
      | _, _ =>
          n ← gostring.parseDigits 0 (int +:+ frac); Some (sign * n, String.length frac)
      end
  | _ => None
  end.

Definition decimal_lt (a b : Decimal) : bool :=
  a.1 * 10 ^ Z.of_nat b.2 <? b.1 * 10 ^ Z.of_nat a.2.

(** Numeric date layouts: [2006] is four digits, [01] a month, [02] a day,
    anything else must appear literally. *)
Definition twoDigits (lo hi : Z) (s : string) : option string :=
  match s with
  | String a (String b t) =>
      match gostring.parseDigits 0 (String a (String b EmptyString)) with
      | Some n => if gostring.inRange lo hi n then Some t else None
      | None => None
      end
  | _ => None
  end.

Fixpoint parseLayout (skip : nat) (layout value : string) : bool :=
  match layout with
  | EmptyString => bool_decide (value = EmptyString)
  | String c layout' =>
      match skip with
      | S k => parseLayout k layout' value
      | O =>
          if String.prefix "2006" layout then
            match value with
            | String a (String b (String c' (String d t))) =>
                forallb isDigitByte [a; b; c'; d] && parseLayout 3 layout' t
            | _ => false
            end
          else if String.prefix "01" layout then
            match twoDigits 1 12 value with
            | Some t => parseLayout 1 layout' t
            | None => false
            end
          else if String.prefix "02" layout then
            match twoDigits 1 31 value with
            | Some t => parseLayout 1 layout' t
            | None => false
            end
          else
            match value with
            | String v t => Ascii.eqb c v && parseLayout 0 layout' t
            | EmptyString => false
            end
      end
  end.

(** A backtracking matcher for the regular expressions the repository
    uses: literals, greedy repetitions of a character class, an optional
    part and capturing groups, with leftmost-first preference as in Go. *)
Inductive regex : Type :=
| Lit (s : string)
| Many0 (class : ascii -> bool)
| Many1 (class : ascii -> bool)
| Seq (r1 r2 : regex)
| Opt (r : regex)
| Group (r : regex).

Definition Cont : Type := string -> list string -> option (list string).

(** The longest run of [class] first, then shorter ones. *)
Fixpoint many (class : ascii -> bool) (s : string) (k : string -> option (list string))
    : option (list string) :=
  match s with
  | String c t =>
      if class c then
        match many class t k with
        | Some r => Some r
        | None => k s
        end
      else k s
  | EmptyString => k s
  end.

(** The text between a position and a later position of the same string. *)
Definition consumed (from to : string) : string :=
  String.substring 0 (String.length from - String.length to) from.

Fixpoint run (r : regex) (s : string) (groups : list string) (k : Cont)
    : option (list string) :=
  match r with
  | Lit l =>
      if String.prefix l s
      then k (String.substring (String.length l) (String.length s - String.length l) s) groups
      else None
  | Many0 class => many class s (fun s' => k s' groups)
  | Many1 class =>
      match s with
      | String c t => if class c then many class t (fun s' => k s' groups) else None
      | EmptyString => None
      end
  | Seq r1 r2 => run r1 s groups (fun s' groups' => run r2 s' groups' k)
  | Opt r' =>
      match run r' s groups k with
      | Some res => Some res
      | None => k s groups
      end
  | Group r' => run r' s groups (fun s' groups' => k s' (groups' ++ [consumed s s']))
  end.

(** The leftmost match: the whole match followed by the groups. *)
Fixpoint find (r : regex) (s : string) : list string :=
  match run r s [] (fun s' groups => Some (consumed s s' :: groups)) with
  | Some res => res
  | None =>
      match s with
      | String _ t => find r t
      | EmptyString => []
      end
  end.

Definition word : regex := Group (Many1 isWordByte).
Definition quoted : regex :=
  Seq (Lit "'") (Seq (Group (Many0 (fun c => negb (Ascii.eqb c "'")))) (Lit "'")).
Definition number : regex :=
  Group (Seq (Many1 isDigitByte) (Opt (Seq (Lit ".") (Many1 isDigitByte)))).
Definition infix (op : string) (rhs : regex) : regex :=
  Seq word (Seq (Many0 isPerlSpace) (Seq (Lit op) (Seq (Many0 isPerlSpace) rhs))).
Definition keyword (op : string) : regex :=
  Seq word (Seq (Many1 isPerlSpace) (Lit op)).

(** The compiled form of each pattern of [evaluateCondition]. *)
Definition compiled : list (string * regex) :=
  [ (validation.pattern_eq, infix "==" quoted);
    (validation.pattern_ne, infix "!=" quoted);
    (validation.pattern_gt, infix ">" number);
    (validation.pattern_lt, infix "<" number);
    (validation.pattern_starts_with,
       Seq (keyword "starts_with") (Seq (Many1 isPerlSpace) quoted));
    (validation.pattern_is_empty, keyword "is_empty");
    (validation.pattern_is_not_empty, keyword "is_not_empty") ].

Definition FindStringSubmatch (pattern s : string) : list string :=
  match list_find (fun pr => pr.1 = pattern) compiled with
  | Some (_, (_, r)) => find r s
  | None => []
  end.

(** A stable merge sort: one of the rearrangements [sort.Slice] may produce. *)
Definition notAfter (less : string -> string -> bool) (a b : string) : Prop :=
  less b a = false.

#[local] Instance notAfter_dec less a b : Decision (notAfter less a b) :=
  decide (less b a = false).

Definition sortSlice (less : string -> string -> bool) (l : list string) : list string :=
  merge_sort (notAfter less) l.

#[export] Instance library : GoLibrary := {|
  float64 := Decimal;
  float64_gt := fun a b => decimal_lt b a;
  float64_lt := decimal_lt;
  strings_TrimSpace := TrimSpace;
  strings_ToLower := mapBytes lowerByte;
  strconv_ParseInt_ok := fun s => bool_decide (is_Some (gostring.Atoi s));
  strconv_ParseFloat := fun s =>
    match parseDecimal s with
    | Some d => (d, true)
    | None => ((0, O), false)
    end;
  time_Parse_ok := parseLayout 0;
  unicode_IsLetter := fun r => gostring.inRange 65 90 r || gostring.inRange 97 122 r;
  unicode_IsDigit := gostring.inRange 48 57;
  unicode_IsSpace := fun r => gostring.inRange 9 13 r || (r =? 32);
  regexp_FindStringSubmatch := FindStringSubmatch;
  sort_Slice := sortSlice;
  sort_Slice_Permutation := fun less l => merge_sort_Permutation (notAfter less) l;
  libraryTransformation := fun kind value _ _ =>
    if decide (kind = "uppercase") then (mapBytes upperByte value, None)
    else (value, None)
|}.

End reference.

(* ===================================================================== *)
(** ** Sample data                                                         *)
(* ===================================================================== *)

(** A small unit of work on which the embedding is run. *)
Module samples.

Import config xlsxparser converter validation xmlwriter.

Definition record (cells : list (string * string)) : Row := list_to_map cells.

(** Three records, two of them of the same check. *)
Definition rows : list Row :=
  [ record [("Check", "1001"); ("Payee", "Acme"); ("Amount", "10.50"); ("Memo", "")];
    record [("Check", "1001"); ("Payee", "Acme"); ("Amount", "4.25"); ("Memo", "paid")];
    record [("Check", "1002"); ("Payee", "Bolt"); ("Amount", "7.00"); ("Memo", "")] ].

Definition mapping (oldHeader xmlTag parentTag dataType requiredType : string)
    (order : Z) : FieldMapping :=
  {| fm_OldHeader := oldHeader; fm_XMLTag := xmlTag; fm_ParentTag := parentTag;
     fm_DataType := dataType; fm_MaxLength := 0; fm_RequiredType := requiredType;
     fm_ConditionalRule := ""; fm_DefaultValue := ""; fm_Order := order |}.

Definition checkMapping : FieldMapping :=
  mapping "Check" "CheckNumber" "transaction" "numeric" "required" 1.
Definition payeeMapping : FieldMapping :=
  mapping "Payee" "PayeeName" "transaction" "string" "optional" 2.
Definition amountMapping : FieldMapping :=
  mapping "Amount" "Amount" "lineItem" "decimal(2)" "required" 3.
Definition memoMapping : FieldMapping :=
  mapping "Memo" "Memo" "lineItem" "string" "required" 4.
Definition noteMapping : FieldMapping :=
  mapping "Note" "Note" "lineItem" "string" "optional" 5.

Definition schema : Schema :=
  {| sc_FieldMappings :=
       list_to_map [ ("Check", checkMapping); ("Payee", payeeMapping);
                     ("Amount", amountMapping); ("Memo", memoMapping);
                     ("Note", noteMapping) ];
     sc_TransactionFields := ["Check"; "Payee"];
     sc_LineItemFields := ["Note"; "Memo"; "Amount"];
     sc_CashbookFields := [];
     sc_XMLRootElement := "cashbook";
     sc_XMLTransactionElement := "transaction";
     sc_XMLLineItemElement := "lineItem" |}.

(** [LineItemNumberingGlobal: false], everything else as by default. *)
Definition localNumbering : GenerateOptions :=
  {| go_Indent := "  ";
     go_IncludeXMLDeclaration := true;
     go_XMLVersion := "1.0";
     go_Encoding := "UTF-8";
     go_RootAttributes := ∅;
     go_LineItemNumberingGlobal := false;
     go_TransactionIndexAttribute := "n";
     go_LineItemIndexAttribute := "n" |}.

(** A line item whose record has no [Memo] column at all, and its
    transaction. *)
Definition lineItemWithoutMemo : LineItem :=
  {| li_ID := 1; li_Fields := record [("Check", "1001"); ("Amount", "10.50")] |}.
Definition transactionWithoutMemo : Transaction :=
  {| tx_ID := 1; tx_GroupKey := "1001"; tx_LineItems := [lineItemWithoutMemo] |}.

(** A line item whose [Memo] is present and empty. *)
Definition lineItemEmptyMemo : LineItem :=
  {| li_ID := 1; li_Fields := record [("Check", "1001"); ("Amount", "10.50"); ("Memo", "")] |}.
Definition transactionEmptyMemo : Transaction :=
  {| tx_ID := 1; tx_GroupKey := "1001"; tx_LineItems := [lineItemEmptyMemo] |}.

(** The one-byte string [0xFF], which is not well-formed UTF-8, and the
    three bytes [0xEF 0xBF 0xBD] of U+FFFD. *)
Definition illFormed : string := String (ascii_of_nat 255) EmptyString.
Definition replacementCharacter : string :=
  String (ascii_of_nat 239) (String (ascii_of_nat 191) (String (ascii_of_nat 189) EmptyString)).

(** A text with the reserved characters and a two-byte character (U+00E9). *)
Definition reservedText : string :=
  "<a href='x'>caf" +:+ String (ascii_of_nat 195) (String (ascii_of_nat 169) EmptyString)
    +:+ " & co</a>".

(** The rows of a CSV file: a header, two data rows around a blank one,
    the last one short. *)
Definition csvRows : list (list string) :=
  [ ["Check"; "Payee"; "Amount"];
    [" 1001 "; "Acme"; "10.50"];
    ["  "; ""; " "];
    ["1002"; " Bolt"] ].
Definition csvHeaders : list string := ["Check"; "Payee"; "Amount"].
Definition csvSettings : CSVSettings := {| cs_HeaderRows := 1; cs_DataStartRow := 2 |}.

Definition ensureLength10 : TransformationAction :=
  {| ta_Type := "ensure_length"; ta_Value := "10"; ta_Find := "";
     ta_Condition := ""; ta_LookupTable := ∅ |}.

End samples.

(* ===================================================================== *)
(** * Properties                                                          *)
(* ===================================================================== *)

(** The solvers of stdpp clear hypotheses that are not always there. *)
#[local] Set Warnings "-clear-no-such-hyp".

(** ** The record grouper *)

Section Grouping.
Import converter.

Lemma firstOccurrences_elem (l : list string) (x : string) :
  x ∈ firstOccurrences l <-> x ∈ l.
Proof.
  revert x. induction l as [|a l IH]; intros x; simpl.
  - reflexivity.
  - rewrite !elem_of_cons, list_elem_of_filter, IH.
    destruct (decide (x = a)); tauto.
Qed.

Lemma firstOccurrences_NoDup (l : list string) : NoDup (firstOccurrences l).
Proof.
  induction l as [|a l IH]; simpl.
  - constructor.
  - constructor.
    + rewrite list_elem_of_filter. by intros [Hne _].
    + by apply NoDup_filter.
Qed.

Lemma firstOccurrences_snoc (l : list string) (x : string) :
  firstOccurrences (l ++ [x])
  = firstOccurrences l ++ (if decide (x ∈ l) then [] else [x]).
Proof.
  induction l as [|a l IH]; simpl.
  - done.
  - rewrite IH, filter_app. f_equal.
    destruct (decide (x ∈ a :: l)) as [Hin|Hnin];
      destruct (decide (x ∈ l)) as [Hin'|Hnin']; try done.
    + apply elem_of_cons in Hin as [->|?]; [|done].
      by rewrite filter_cons_False by (intros ?; auto).
    + exfalso. apply Hnin. by apply list_elem_of_further.
    + rewrite filter_cons_True; [done|].
      intros ->. apply Hnin. apply list_elem_of_here.
Qed.

Lemma firstOccurrences_size (l : list string) :
  List.length (firstOccurrences l) = size (list_to_set l : gset string).
Proof.
  rewrite <- (size_list_to_set (C := gset string)) by apply firstOccurrences_NoDup.
  f_equal. apply set_eq. intros x.
  rewrite !elem_of_list_to_set. apply firstOccurrences_elem.
Qed.

(** What the first loop has built once the records [rows] are processed. *)
Definition groupsOf (f : string) (rows : list Row) (st : GroupState) : Prop :=
  st.2 = firstOccurrences (map (keyOf f) rows)
  /\ forall k,
       st.1 !! k = (if decide (k ∈ map (keyOf f) rows)
                    then Some (recordsOf f k rows) else None).

Lemma recordsOf_snoc f k rows row :
  recordsOf f k (rows ++ [row])
  = recordsOf f k rows ++ (if decide (keyOf f row = k) then [row] else []).
Proof.
  unfold recordsOf. by rewrite filter_app.
Qed.

Lemma recordsOf_absent f k rows :
  k ∉ map (keyOf f) rows -> recordsOf f k rows = [].
Proof.
  unfold recordsOf. induction rows as [|row rows IH]; simpl; intros Hk; [done|].
  rewrite not_elem_of_cons in Hk. destruct Hk as [Hne Hk].
  rewrite filter_cons_False by (intros ?; auto). auto.
Qed.

Lemma addRow_groupsOf f rows row st :
  groupsOf f rows st -> groupsOf f (rows ++ [row]) (addRow f st row).
Proof.
  intros [Hord Hgrp]. unfold addRow. fold (keyOf f row).
  set (key := keyOf f row). split; simpl.
  - rewrite map_app. simpl. rewrite firstOccurrences_snoc, Hord. fold key.
    rewrite (Hgrp key).
    destruct (decide (key ∈ map (keyOf f) rows)).
    + rewrite decide_True by eauto. by rewrite app_nil_r.
    + rewrite decide_False; [done|]. intros [? ?]. done.
  - intros k. rewrite map_app. simpl. fold key. rewrite recordsOf_snoc. fold key.
    destruct (decide (key = k)) as [<-|Hne].
    + rewrite lookup_insert_eq.
      rewrite decide_True by (rewrite elem_of_app, list_elem_of_singleton; auto).
      rewrite (Hgrp key). destruct (decide (key ∈ map (keyOf f) rows)) as [Hin|Hnin]; simpl.
      * done.
      * f_equal. rewrite recordsOf_absent; done.
    + rewrite lookup_insert_ne by done. rewrite app_nil_r, (Hgrp k).
      destruct (decide (k ∈ map (keyOf f) rows)) as [Hin|Hnin].
      * rewrite decide_True by (rewrite elem_of_app; auto). done.
      * rewrite decide_False; [done|].
        rewrite elem_of_app, list_elem_of_singleton. intros [?|?]; congruence.
Qed.

Lemma collectGroups_groupsOf f rows : groupsOf f rows (collectGroups f rows).
Proof.
  unfold collectGroups. induction rows as [|row rows IH] using rev_ind.
  - split; [done|]. intros k. apply lookup_empty.
  - rewrite foldl_app. simpl. by apply addRow_groupsOf.
Qed.

Lemma numberLineItems_spec (c : Z) (rows : list Row) :
  map li_Fields (numberLineItems c rows).1 = rows
  /\ map li_ID (numberLineItems c rows).1 = seqZ c (Z.of_nat (List.length rows))
  /\ (numberLineItems c rows).2 = c + Z.of_nat (List.length rows).
Proof.
  revert c. induction rows as [|row rows IH]; intros c.
  - cbn. repeat split. lia.
  - cbn [numberLineItems]. specialize (IH (c + 1)).
    destruct (numberLineItems (c + 1) rows) as [items c'].
    cbn [fst snd map] in *. destruct IH as (IH1 & IH2 & IH3).
    rewrite IH1, IH2, IH3. repeat split; [|cbn [List.length]; lia].
    cbn [List.length]. rewrite (seqZ_cons c) by lia. do 2 f_equal; lia.
Qed.

(** The transactions built from the groups, one per key of [groupOrder]. *)
Lemma buildTransactions_spec (groups : gmap string (list Row)) (i c : Z)
    (groupOrder : list string) :
  let txs := buildTransactions groups i c groupOrder in
  map tx_GroupKey txs = groupOrder
  /\ map tx_ID txs = seqZ (i + 1) (Z.of_nat (List.length groupOrder))
  /\ map (fun tx => map li_Fields (tx_LineItems tx)) txs
     = map (fun key => default [] (groups !! key)) groupOrder
  /\ concat (map (fun tx => map li_ID (tx_LineItems tx)) txs)
     = seqZ c (Z.of_nat (List.length (concat (map tx_LineItems txs)))).
Proof.
  revert i c. induction groupOrder as [|key rest IH]; intros i c.
  - done.
  - cbn [buildTransactions].
    pose proof (numberLineItems_spec c (default [] (groups !! key))) as (N1 & N2 & N3).
    destruct (numberLineItems c (default [] (groups !! key))) as [items c'].
    cbn [fst snd] in *. specialize (IH (i + 1) c').
    cbn zeta in *. destruct IH as (IH1 & IH2 & IH3 & IH4).
    cbn [map tx_GroupKey tx_ID tx_LineItems concat List.length].
    rewrite IH1, IH2, IH3, IH4, N1, N2. repeat split.
    + rewrite (seqZ_cons (i + 1)) by lia. do 2 f_equal; lia.
    + assert (length (default [] (groups !! key)) = length items) as ->
        by (by rewrite <- N1, length_map).
      rewrite length_app, Nat2Z.inj_add.
      rewrite seqZ_app by lia. rewrite N3.
      assert (length (default [] (groups !! key)) = length items) as ->
        by (by rewrite <- N1, length_map). done.
Qed.

Lemma groupTransactions_grouped (f : string) (rows : list Row) :
  f <> "" ->
  groupTransactions f rows
  = buildTransactions (collectGroups f rows).1 0 1
      (firstOccurrences (map (keyOf f) rows)).
Proof.
  intros Hf. unfold groupTransactions. rewrite decide_False by done.
  pose proof (collectGroups_groupsOf f rows) as [Hord _].
  destruct (collectGroups f rows) as [groups groupOrder]. simpl in *. by rewrite Hord.
Qed.

(** The transactions of a non-empty grouping field. *)
Lemma groupTransactions_keyed (f : string) (rows : list Row) :
  f <> "" ->
  let txs := groupTransactions f rows in
  map tx_GroupKey txs = firstOccurrences (map (keyOf f) rows)
  /\ Forall (fun tx =>
               map li_Fields (tx_LineItems tx) = recordsOf f (tx_GroupKey tx) rows
               /\ tx_LineItems tx <> [])
            txs
  /\ map tx_ID txs = seqZ 1 (Z.of_nat (length txs)).
Proof.
  intros Hf txs. subst txs. rewrite (groupTransactions_grouped f rows Hf).
  pose proof (collectGroups_groupsOf f rows) as [_ Hgrp].
  set (keys := firstOccurrences (map (keyOf f) rows)).
  pose proof (buildTransactions_spec (collectGroups f rows).1 0 1 keys)
    as (B1 & B2 & B3 & _). cbn zeta in *.
  set (txs := buildTransactions (collectGroups f rows).1 0 1 keys) in *.
  assert (Hlen : length txs = length keys) by (by rewrite <- B1, length_map).
  split; [done|]. split; [|by rewrite B2, Hlen].
  apply Forall_forall. intros tx Htx.
  apply list_elem_of_lookup in Htx as [i Hi].
  assert (map (fun tx => map li_Fields (tx_LineItems tx)) txs !! i
          = Some (map li_Fields (tx_LineItems tx))) as Hfi
    by (by rewrite list_lookup_fmap, Hi).
  rewrite B3, list_lookup_fmap in Hfi.
  assert (keys !! i = Some (tx_GroupKey tx)) as Hki
    by (by rewrite <- B1, list_lookup_fmap, Hi).
  rewrite Hki in Hfi. simpl in Hfi. injection Hfi as Hfi.
  assert (tx_GroupKey tx ∈ map (keyOf f) rows) as Hin.
  { apply firstOccurrences_elem. by eapply list_elem_of_lookup_2. }
  rewrite (Hgrp (tx_GroupKey tx)), decide_True in Hfi by done. simpl in Hfi.
  split; [done|]. intros Hnil. rewrite Hnil in Hfi. simpl in Hfi.
  apply list_elem_of_fmap in Hin as (row & Hk & Hrow).
  assert (row ∈ recordsOf f (tx_GroupKey tx) rows) as Hr
    by (by apply list_elem_of_filter).
  first [rewrite <- Hfi in Hr | rewrite Hfi in Hr]. by apply not_elem_of_nil in Hr.
Qed.

(** The transactions of an empty grouping field: one per record. *)
Lemma groupTransactions_singletons (rows : list Row) :
  map (fun tx => map li_Fields (tx_LineItems tx)) (groupTransactions "" rows)
  = map (fun row => [row]) rows.
Proof.
  unfold groupTransactions. rewrite decide_True by done.
  unfold singletonTransactions. rewrite fmap_imap.
  rewrite <- (imap_const (fun row : Row => [row])). done.
Qed.

(** Every transaction the grouper produces has a first line item. *)
Lemma groupTransactions_lineItems_nonempty (f : string) (rows : list Row) :
  Forall (fun tx => tx_LineItems tx <> []) (groupTransactions f rows).
Proof.
  destruct (decide (f = "")) as [->|Hf].
  - pose proof (groupTransactions_singletons rows) as Hs.
    apply Forall_forall. intros tx Htx Hnil.
    apply list_elem_of_lookup in Htx as [i Hi].
    assert (map (fun tx => map li_Fields (tx_LineItems tx)) (groupTransactions "" rows) !! i
            = Some []) as Hfi by (by rewrite list_lookup_fmap, Hi; simpl; rewrite Hnil).
    rewrite Hs, list_lookup_fmap in Hfi. by destruct (rows !! i).
  - destruct (groupTransactions_keyed f rows Hf) as (_ & Hall & _).
    eapply Forall_impl; [exact Hall|]. by intros tx [_ ?].
Qed.

(** C2. With a non-empty grouping field there is exactly one transaction per
    distinct group key, the transactions come in the order in which their
    keys first appear, they are numbered from 1, and the line items of each
    are the records with its key in input order.  With an empty grouping
    field every record becomes a transaction of its own with that record as
    its single line item. *)
Theorem groupTransactions_partition (f : string) (rows : list Row) :
  (f <> "" ->
   let txs := groupTransactions f rows in
   map tx_GroupKey txs = firstOccurrences (map (keyOf f) rows)
   /\ NoDup (map tx_GroupKey txs)
   /\ (forall k, k ∈ map tx_GroupKey txs <-> exists row, row ∈ rows /\ keyOf f row = k)
   /\ length txs = size (list_to_set (map (keyOf f) rows) : gset string)
   /\ Forall (fun tx =>
                map li_Fields (tx_LineItems tx) = recordsOf f (tx_GroupKey tx) rows
                /\ tx_LineItems tx <> [])
             txs
   /\ map tx_ID txs = seqZ 1 (Z.of_nat (length txs)))
  /\ map (fun tx => map li_Fields (tx_LineItems tx)) (groupTransactions "" rows)
     = map (fun row => [row]) rows.
Proof.
  split; [|apply groupTransactions_singletons].
  intros Hf txs. destruct (groupTransactions_keyed f rows Hf) as (Hkeys & Hitems & Hids).
  fold txs in Hkeys, Hitems, Hids.
  split; [done|]. split; [rewrite Hkeys; apply firstOccurrences_NoDup|].
  split.
  { intros k. rewrite Hkeys, firstOccurrences_elem, list_elem_of_fmap.
    split; intros (row & ? & ?); exists row; by split. }
  split; [|done].
  rewrite <- firstOccurrences_size, <- Hkeys. by rewrite length_map.
Qed.

End Grouping.

(** ** The document assembler *)

Section Assembly.
Import config xlsxparser converter xmlwriter.
Context `{GoLibrary}.

Lemma addStaticFields_spec level children staticFields :
  addStaticFields level children staticFields
  = children ++ staticElements level staticFields.
Proof.
  unfold addStaticFields, staticElements. revert children.
  induction staticFields as [|sf sfs IH]; intros children; simpl.
  - by rewrite app_nil_r.
  - rewrite IH. destruct (decide (strings_ToLower (sf_ParentTag sf) = level)).
    + rewrite filter_cons_True by done. simpl. by rewrite <- app_assoc.
    + by rewrite filter_cons_False by done.
Qed.

Lemma addSchemaFields_spec schema values children fields :
  addSchemaFields schema values children fields
  = children ++ map (fieldElement schema values) (filter (emitted schema values) fields).
Proof.
  unfold addSchemaFields. revert children.
  induction fields as [|k fields IH]; intros children; simpl.
  - by rewrite app_nil_r.
  - rewrite IH. clear IH. destruct (decide (emitted schema values k)) as [He|He].
    + rewrite filter_cons_True by done. destruct He as (m & Hm & Hc).
      rewrite Hm, decide_True by done. simpl. unfold fieldElement at 2.
      rewrite Hm. simpl. by rewrite <- app_assoc.
    + rewrite filter_cons_False by done.
      destruct (GetFieldMapping schema k) as [m|] eqn:Hm; [|done].
      rewrite decide_False; [done|]. intros Hc. apply He. by exists m.
Qed.

Lemma attributeValues_app l1 l2 :
  attributeValues (l1 ++ l2) = attributeValues l1 ++ attributeValues l2.
Proof. unfold attributeValues. apply flat_map_app. Qed.

Lemma attributeValues_static level staticFields :
  attributeValues (staticElements level staticFields) = [].
Proof.
  unfold staticElements.
  induction (filter _ staticFields) as [|? ? IH]; [done|]. simpl. exact IH.
Qed.

Lemma attributeValues_fields schema values fields :
  attributeValues (map (fieldElement schema values) fields) = [].
Proof. induction fields as [|? ? IH]; [done|]. simpl. exact IH. Qed.

Lemma buildLineItemElement_attributeValues li schema staticFields options c :
  map snd (Attributes (buildLineItemElement li schema staticFields options c))
  = [pretty (if go_LineItemNumberingGlobal options then c else li_ID li)].
Proof. done. Qed.

Lemma addLineItems_spec schema staticFields options children c lineItems :
  exists elements,
    addLineItems schema staticFields options (children, c) lineItems
    = (children ++ elements, counterAfter options c lineItems)
    /\ length elements = length lineItems
    /\ attributeValues elements = map pretty (indicesFrom options c lineItems).
Proof.
  unfold addLineItems, indicesFrom, counterAfter.
  revert children c. induction lineItems as [|li lis IH]; intros children c.
  - exists []. simpl. rewrite app_nil_r.
    destruct (go_LineItemNumberingGlobal options); repeat split; f_equal; lia.
  - cbn [foldl].
    destruct (IH (children ++
                  [buildLineItemElement li schema staticFields options c])
                 (if go_LineItemNumberingGlobal options then c + 1 else c))
      as (elements & E1 & E2 & E3).
    exists (buildLineItemElement li schema staticFields options c :: elements).
    rewrite E1, <- app_assoc. unfold attributeValues in *.
    cbn [flat_map app length]. rewrite E2, E3, buildLineItemElement_attributeValues.
    destruct (go_LineItemNumberingGlobal options).
    + repeat split; [f_equal; lia|].
      rewrite (seqZ_cons c) by lia. simpl. do 3 f_equal; lia.
    + done.
Qed.

Lemma buildTransactionElement_indices transaction schema staticFields options c :
  let '(element, c') :=
    buildTransactionElement transaction schema staticFields options c in
  lineItemIndices element = map pretty (indicesFrom options c (tx_LineItems transaction))
  /\ Attributes element <> []
  /\ c' = counterAfter options c (tx_LineItems transaction).
Proof.
  unfold buildTransactionElement.
  set (children := match tx_LineItems transaction with [] => _ | _ :: _ => _ end).
  destruct (addLineItems_spec schema staticFields options children c
              (tx_LineItems transaction)) as (elements & E1 & E2 & E3).
  rewrite E1. unfold lineItemIndices. simpl.
  rewrite attributeValues_app, E3. split; [|done].
  assert (attributeValues children = []) as ->; [|done].
  unfold children. destruct (tx_LineItems transaction).
  - rewrite addStaticFields_spec. apply attributeValues_static.
  - rewrite addSchemaFields_spec, addStaticFields_spec, attributeValues_app.
    simpl. rewrite attributeValues_static, attributeValues_fields. done.
Qed.

Lemma filter_attributes_static level staticFields :
  filter (fun e => Attributes e <> []) (staticElements level staticFields) = [].
Proof.
  unfold staticElements.
  induction (filter _ staticFields) as [|? ? IH]; [done|]. simpl.
  rewrite filter_cons_False by (intros ?; done). exact IH.
Qed.

(** One iteration of [for _, transaction := range transactions]. *)
Lemma buildDocument_loop schema staticFields options txs children c :
  let step := fun (st : list XMLElement * Z) transaction =>
    let '(children, globalLineItemIndex) := st in
    let '(transactionElement, globalLineItemIndex) :=
      buildTransactionElement transaction schema staticFields options
                              globalLineItemIndex in
    (children ++ [transactionElement], globalLineItemIndex) in
  map lineItemIndices
      (filter (fun e => Attributes e <> []) (foldl step (children, c) txs).1)
  = map lineItemIndices (filter (fun e => Attributes e <> []) children)
    ++ map (map pretty) (documentIndicesFrom options c txs).
Proof.
  intros step. revert children c.
  induction txs as [|tx txs IH]; intros children c.
  - simpl. by rewrite app_nil_r.
  - cbn [foldl documentIndicesFrom]. unfold step at 2.
    pose proof (buildTransactionElement_indices tx schema staticFields options c) as Htx.
    destruct (buildTransactionElement tx schema staticFields options c) as [element c'].
    destruct Htx as (T1 & T2 & ->). rewrite IH, filter_app, map_app.
    rewrite filter_cons_True by done. rewrite filter_nil. simpl.
    rewrite T1, <- app_assoc. done.
Qed.

Lemma buildDocument_indices transactions schema staticFields options :
  documentLineItemIndices (buildDocument transactions schema staticFields options)
  = map (map pretty) (documentIndicesFrom options 1 transactions).
Proof.
  unfold buildDocument, documentLineItemIndices.
  rewrite addStaticFields_spec. cbn [app].
  pose proof (buildDocument_loop schema staticFields options transactions
                (staticElements "cashbook" staticFields) 1) as Hloop.
  cbn zeta in Hloop.
  destruct (foldl _ _ transactions) as [children c'].
  cbn [doc_Children fst] in *. rewrite Hloop, filter_attributes_static. done.
Qed.

(** With global numbering the indices of a document, read in document
    order, count up from the counter by one. *)
Lemma documentIndicesFrom_global options c transactions :
  go_LineItemNumberingGlobal options = true ->
  concat (documentIndicesFrom options c transactions)
  = seqZ c (Z.of_nat (length (concat (map tx_LineItems transactions)))).
Proof.
  intros Hg. revert c. induction transactions as [|tx txs IH]; intros c.
  - done.
  - cbn [documentIndicesFrom concat map]. unfold indicesFrom, counterAfter.
    rewrite Hg, IH, length_app, Nat2Z.inj_add, seqZ_app by lia. done.
Qed.

(** Without it each line item carries the identifier the grouper gave it. *)
Lemma documentIndicesFrom_local options c transactions :
  go_LineItemNumberingGlobal options = false ->
  documentIndicesFrom options c transactions
  = map (fun tx => map li_ID (tx_LineItems tx)) transactions.
Proof.
  intros Hg. revert c. induction transactions as [|tx txs IH]; intros c.
  - done.
  - cbn [documentIndicesFrom map]. unfold indicesFrom, counterAfter.
    rewrite Hg, IH. done.
Qed.

Lemma concat_map_map {A B} (g : A -> B) (l : list (list A)) :
  concat (map (map g) l) = map g (concat l).
Proof. induction l as [|x l IH]; [done|]. simpl. by rewrite map_app, IH. Qed.

(** Global numbering: the line-item indices of a document are [1..N] in
    document order, whatever the transactions the line items belong to. *)
Lemma global_numbering_consecutive transactions schema staticFields options :
  go_LineItemNumberingGlobal options = true ->
  concat (documentLineItemIndices
            (buildDocument transactions schema staticFields options))
  = map pretty (seqZ 1 (Z.of_nat (length (concat (map tx_LineItems transactions))))).
Proof.
  intros Hg. rewrite buildDocument_indices, concat_map_map.
  by rewrite documentIndicesFrom_global.
Qed.

(** Per-transaction numbering as implemented: the indices are the
    identifiers of the line items, which the grouper numbers through the
    whole unit of work, so they are again [1..N] and do not restart. *)
Lemma local_numbering_uses_grouper_ids f rows schema staticFields options :
  f <> "" ->
  go_LineItemNumberingGlobal options = false ->
  let transactions := groupTransactions f rows in
  documentLineItemIndices (buildDocument transactions schema staticFields options)
  = map (fun tx => map (fun li => pretty (li_ID li)) (tx_LineItems tx)) transactions
  /\ concat (documentLineItemIndices
               (buildDocument transactions schema staticFields options))
     = map pretty (seqZ 1 (Z.of_nat (length (concat (map tx_LineItems transactions))))).
Proof.
  intros Hf Hg transactions.
  rewrite buildDocument_indices, documentIndicesFrom_local by done.
  split.
  - rewrite map_map. apply map_ext. intros tx. by rewrite map_map.
  - rewrite concat_map_map. f_equal. subst transactions.
    rewrite (groupTransactions_grouped f rows Hf).
    apply (buildTransactions_spec (collectGroups f rows).1 0 1).
Qed.

Lemma getOrderedFields_elem fields schema k :
  k ∈ getOrderedFields fields schema <-> k ∈ fields.
Proof.
  unfold getOrderedFields.
  by rewrite (sort_Slice_Permutation (orderLess schema) fields).
Qed.

(** C8. The schema fields written into a line-item element, and into a
    transaction element that has a first line item to read them from, are
    the elements of exactly those keys of the level, taken in the order
    [getOrderedFields] gives, that have a mapping and whose value is not
    empty or whose mapping is [required]; a required field with an empty
    value is therefore written, as an element with empty text.  Every
    transaction that comes from the grouper has a first line item. *)
Theorem schema_field_emitted_iff schema staticFields options :
  (forall lineItem c,
     Children (buildLineItemElement lineItem schema staticFields options c)
     = staticElements "lineitem" staticFields
       ++ map (fieldElement schema (li_Fields lineItem))
              (filter (emitted schema (li_Fields lineItem))
                      (getOrderedFields (sc_LineItemFields schema) schema)))
  /\ (forall transaction first rest c,
        tx_LineItems transaction = first :: rest ->
        exists lineItemElements,
          Children (buildTransactionElement transaction schema staticFields options c).1
          = staticElements "transaction" staticFields
            ++ map (fieldElement schema (li_Fields first))
                   (filter (emitted schema (li_Fields first))
                           (getOrderedFields (sc_TransactionFields schema) schema))
            ++ lineItemElements
          /\ length lineItemElements = length (tx_LineItems transaction))
  /\ (forall values fields k,
        k ∈ filter (emitted schema values) (getOrderedFields fields schema)
        <-> k ∈ fields
            /\ exists mapping,
                 GetFieldMapping schema k = Some mapping
                 /\ (values !!! k <> "" \/ fm_RequiredType mapping = "required"))
  /\ (forall groupByField rows,
        Forall (fun transaction => tx_LineItems transaction <> [])
               (groupTransactions groupByField rows)).
Proof.
  split; [|split; [|split; [|apply groupTransactions_lineItems_nonempty]]].
  - intros lineItem c. unfold buildLineItemElement. cbn [Children].
    by rewrite addSchemaFields_spec, addStaticFields_spec.
  - intros transaction first rest c Hitems. unfold buildTransactionElement.
    rewrite Hitems.
    destruct (addLineItems_spec schema staticFields options
                (addSchemaFields schema (li_Fields first)
                   (addStaticFields "transaction" [] staticFields)
                   (getOrderedFields (sc_TransactionFields schema) schema))
                c (first :: rest)) as (elements & E1 & E2 & _).
    rewrite E1. cbn [fst Children]. exists elements. split; [|done].
    by rewrite addSchemaFields_spec, addStaticFields_spec, <- app_assoc.
  - intros values fields k.
    by rewrite list_elem_of_filter, getOrderedFields_elem, (comm and).
Qed.

End Assembly.

(** ** The validation engine *)

Section Validation.
Import xlsxparser converter validation.
Context `{GoLibrary}.

(** C3. A required field with an empty value yields exactly one finding,
    with rule [required] and severity [error]; in particular no
    [data_type], [max_length] or [conditional_required] finding. *)
Theorem ValidateField_required_empty (value : string) (mapping : FieldMapping)
    (transaction : Transaction) (lineItem : LineItem) :
  fm_RequiredType mapping = "required" ->
  value = "" ->
  exists e,
    ValidateField value mapping transaction lineItem = [e]
    /\ ve_Rule e = "required"
    /\ ve_Severity e = "error"
    /\ ve_Field e = fm_OldHeader mapping
    /\ Forall (fun e' => ve_Rule e' <> "data_type" /\ ve_Rule e' <> "max_length"
                         /\ ve_Rule e' <> "conditional_required")
              (ValidateField value mapping transaction lineItem).
Proof.
  intros Hreq ->. unfold ValidateField. rewrite decide_True by done.
  eexists. split; [reflexivity|]. repeat split; try done.
  repeat constructor; done.
Qed.

Lemma ValidateField_nonempty value mapping transaction lineItem :
  value <> "" ->
  ValidateField value mapping transaction lineItem
  = nonEmptyFindings value mapping transaction lineItem.
Proof.
  intros Hv. unfold ValidateField, nonEmptyFindings.
  rewrite decide_False by (intros [_ ?]; done).
  rewrite decide_False by done.
  rewrite (bool_decide_eq_false_2 (value = "")) by done.
  rewrite andb_false_r.
  assert ((if decide (fm_RequiredType mapping = "conditional"
                      /\ fm_ConditionalRule mapping <> "")
           then @nil ValidationError else []) = []) as -> by (by case_decide).
  destruct (_ && _); destruct (decide (_ <> "")); done.
Qed.

(** C4. [ValidateField] never produces a [conditional_required] finding:
    a value reaching the conditional check is not empty, and the check only
    reports an empty value.  The findings do not depend on the conditional
    rule of the mapping at all. *)
Theorem ValidateField_never_conditional_required (value : string)
    (mapping : FieldMapping) (transaction : Transaction) (lineItem : LineItem) :
  Forall (fun e => ve_Rule e <> "conditional_required")
         (ValidateField value mapping transaction lineItem)
  /\ (value = "" \/
      ValidateField value mapping transaction lineItem
      = nonEmptyFindings value mapping transaction lineItem).
Proof.
  destruct (decide (value = "")) as [->|Hv].
  - split; [|by left]. unfold ValidateField.
    destruct (decide (fm_RequiredType mapping = "required" /\ "" = "")).
    + repeat constructor. done.
    + rewrite decide_True by done. constructor.
  - rewrite ValidateField_nonempty by done. split; [|by right].
    unfold nonEmptyFindings. apply Forall_app. split.
    + destruct (_ && _); repeat constructor; done.
    + destruct (decide (_ <> "")); repeat constructor; done.
Qed.

End Validation.

Section ValidationLineItem.
Import xlsxparser converter validation.
Context `{GoLibrary}.

Lemma ValidateField_Field value mapping transaction lineItem :
  Forall (fun e => ve_Field e = fm_OldHeader mapping)
         (ValidateField value mapping transaction lineItem).
Proof.
  destruct (decide (value = "")) as [->|Hv].
  - unfold ValidateField.
    destruct (decide (fm_RequiredType mapping = "required" /\ "" = "")).
    + repeat constructor.
    + rewrite decide_True by done. constructor.
  - rewrite ValidateField_nonempty by done.
    unfold nonEmptyFindings. apply Forall_app. split.
    + destruct (_ && _); repeat constructor.
    + destruct (decide (_ <> "")); repeat constructor.
Qed.

(** Every finding of a line item names a key that was visited. *)
Lemma validateEntry_Field v transaction lineItem errors entry (P : string -> Prop) :
  keyedByOldHeader (v_schema v) ->
  Forall (fun e => P (ve_Field e)) errors ->
  P entry.1 ->
  Forall (fun e => P (ve_Field e)) (validateEntry v transaction lineItem errors entry).
Proof.
  intros Hkeyed Herrors HP. destruct entry as [fieldName value]. simpl in HP.
  unfold validateEntry.
  destruct (GetFieldMapping (v_schema v) fieldName) as [mapping|] eqn:Hm; [|done].
  destruct (_ && _); [done|].
  assert (Forall (fun e => P (ve_Field e))
            (errors ++ ValidateField value mapping transaction lineItem)) as Hfield.
  { apply Forall_app. split; [done|].
    eapply Forall_impl; [apply ValidateField_Field|].
    intros e ->. by rewrite (Hkeyed _ _ Hm). }
  destruct (vo_CustomValidators (v_options v) !! fieldName); [|done].
  case_decide; [|done]. apply Forall_app. split; [done|]. by repeat constructor.
Qed.

Lemma ValidateLineItemIn_Field v transaction lineItem visit :
  keyedByOldHeader (v_schema v) ->
  Forall (fun e => ve_Field e ∈ map fst visit)
         (ValidateLineItemIn v transaction lineItem visit).
Proof.
  intros Hkeyed. unfold ValidateLineItemIn.
  induction visit as [|entry visit IH] using rev_ind.
  - constructor.
  - rewrite foldl_snoc.
    apply (validateEntry_Field v transaction lineItem _ entry
             (fun k => k ∈ map fst (visit ++ [entry]))); [done| |].
    + eapply Forall_impl; [exact IH|]. intros e He. simpl in He.
      rewrite map_app, elem_of_app. by left.
    + rewrite map_app, elem_of_app. right. simpl. apply list_elem_of_here.
Qed.

(** C9. Only the keys present in the field map of a line item are
    validated: whatever order the map is visited in, no finding names a
    key that is absent from it, so a required field that is missing from
    the record (rather than present and empty) is not reported. *)
Theorem ValidateLineItem_ignores_absent_keys (v : Validator)
    (transaction : Transaction) (lineItem : LineItem)
    (visit : list (string * string)) (k : string) :
  keyedByOldHeader (v_schema v) ->
  visitOrder (li_Fields lineItem) visit ->
  li_Fields lineItem !! k = None ->
  Forall (fun e => ve_Field e <> k) (ValidateLineItemIn v transaction lineItem visit).
Proof.
  intros Hkeyed Hvisit Hk.
  eapply Forall_impl; [by apply ValidateLineItemIn_Field|].
  intros e He Heq. simpl in He. rewrite Heq in He.
  apply list_elem_of_fmap in He as ([k' value] & -> & Hin). simpl in Hk.
  unfold visitOrder in Hvisit. rewrite Hvisit in Hin.
  apply elem_of_map_to_list in Hin. congruence.
Qed.

(** C5. A rule that none of the seven patterns matches evaluates to false. *)
Theorem evaluateCondition_unmatched (rule : string) (fields : Row) :
  (forall pattern,
     pattern ∈ conditionPatterns ->
     regexp_FindStringSubmatch pattern
       (strings_TrimSpace (gostring.TrimPrefix rule "if ")) = []) ->
  evaluateCondition rule fields = false.
Proof.
  intros Hnone. unfold evaluateCondition.
  rewrite !Hnone; [done|unfold conditionPatterns; set_solver..].
Qed.

End ValidationLineItem.

(** ** The transformer *)

Section Transformer.
Import config converter gostring.
Context `{GoLibrary}.

Lemma string_length_app (s t : string) :
  String.length (s +:+ t) = (String.length s + String.length t)%nat.
Proof. induction s as [|c s IH]; simpl; [done|]. by rewrite IH. Qed.

Lemma string_length_substring0 (n : nat) (s : string) :
  (n <= String.length s)%nat -> String.length (String.substring 0 n s) = n.
Proof.
  revert n. induction s as [|c s IH]; intros [|n] Hn; simpl in *; try done; try lia.
  rewrite IH; [done|lia].
Qed.

Lemma string_length_repeatByte c n : String.length (repeatByte c n) = n.
Proof. induction n as [|n IH]; simpl; [done|]. by rewrite IH. Qed.

Lemma stringOfRunes_zeros (n : nat) :
  stringOfRunes (replicate n rune_0) = repeatByte "0" n.
Proof.
  unfold stringOfRunes, stringOf.
  induction n as [|n IH]; [done|]. simpl in *. by rewrite IH.
Qed.

Lemma PadLeft_zeros (s : string) (n : Z) :
  PadLeft s n rune_0
  = repeatByte "0" (Z.to_nat (n - len s)) +:+ s.
Proof.
  unfold PadLeft. destruct (len s >=? n) eqn:Hge.
  - replace (Z.to_nat (n - len s)) with O by lia. done.
  - by rewrite stringOfRunes_zeros.
Qed.

(** C6. With a target length [n > 0], [ensure_length] keeps the first [n]
    bytes of a value longer than [n] and otherwise puts ['0'] bytes in front
    of it up to the length [n]; either way the result is [n] bytes long and
    no error is returned.  Lengths are those of Go's [len]: bytes. *)
Theorem ensure_length_spec (value : string) (action : TransformationAction)
    (allFields : Row) (n : Z) :
  ta_Type action = "ensure_length" ->
  Atoi (ta_Value action) = Some n ->
  0 < n ->
  ApplyTransformation value action allFields
  = (if len value >? n
     then String.substring 0 (Z.to_nat n) value
     else repeatByte "0" (Z.to_nat (n - len value)) +:+ value,
     None)
  /\ len (ApplyTransformation value action allFields).1 = n.
Proof.
  intros Hkind Hparam Hn.
  assert (ApplyTransformation value action allFields
          = (ensureLength value (ta_Value action), None)) as ->.
  { unfold ApplyTransformation. rewrite Hkind.
    repeat (rewrite decide_False by done). by rewrite decide_True. }
  unfold ensureLength. rewrite Hparam.
  replace (n <=? 0) with false by lia.
  rewrite PadLeft_zeros. unfold sliceTo. split; [done|].
  cbn [fst]. unfold len in *.
  destruct (Z.of_nat (String.length value) >? n) eqn:Hlen.
  - rewrite string_length_substring0 by lia. lia.
  - rewrite string_length_app, string_length_repeatByte. lia.
Qed.

End Transformer.

(** ** The CSV data rows *)

Section DataRows.
Import config csvparser.
Context `{GoLibrary}.

Lemma isRowEmpty_blankRow (row : list string) :
  isRowEmpty row = true <-> blankRow row.
Proof.
  unfold blankRow. induction row as [|cell row IH]; simpl.
  - split; [constructor|done].
  - destruct (decide (strings_TrimSpace cell <> "")) as [Hne|He].
    + split; [done|]. intros Hall. by inversion Hall.
    + rewrite IH. split.
      * intros Hall. constructor; [|done]. by destruct (decide (strings_TrimSpace cell = "")).
      * intros Hall. by inversion Hall.
Qed.

Lemma convertRows_spec headers rows :
  convertRows headers rows
  = map (rowToMap headers) (filter (fun row => ~ blankRow row) rows).
Proof.
  induction rows as [|row rows IH]; simpl; [done|].
  destruct (isRowEmpty row) eqn:He.
  - apply isRowEmpty_blankRow in He. rewrite filter_cons_False by (intros ?; done). done.
  - rewrite filter_cons_True; [by rewrite IH|].
    intros Hb. apply isRowEmpty_blankRow in Hb. congruence.
Qed.

Lemma setColumn_spec row rowMap colIndex header :
  setColumn row rowMap colIndex header = <[header := cellValue row colIndex]> rowMap.
Proof. unfold setColumn, cellValue. by destruct (row !! colIndex). Qed.

Lemma fillRow_other row rowMap colIndex headers h :
  h ∉ headers -> fillRow row rowMap colIndex headers !! h = rowMap !! h.
Proof.
  revert rowMap colIndex. induction headers as [|h0 headers IH]; intros m i Hh; [done|].
  apply not_elem_of_cons in Hh as [Hne Hh]. simpl.
  rewrite IH, setColumn_spec by done. by rewrite lookup_insert_ne.
Qed.

Lemma fillRow_last row rowMap colIndex headers j h :
  headers !! j = Some h ->
  (forall j', (j < j')%nat -> headers !! j' <> Some h) ->
  fillRow row rowMap colIndex headers !! h = Some (cellValue row (colIndex + j)).
Proof.
  revert rowMap colIndex j. induction headers as [|h0 headers IH]; intros m i j Hj Hlast.
  - done.
  - destruct j as [|j]; simpl in *.
    + injection Hj as ->. rewrite fillRow_other, setColumn_spec.
      * rewrite lookup_insert_eq. do 2 f_equal. lia.
      * intros Hin. apply list_elem_of_lookup in Hin as [j' Hj'].
        apply (Hlast (S j')); [lia|done].
    + rewrite (IH _ _ j Hj).
      * do 2 f_equal. lia.
      * intros j' Hlt. apply (Hlast (S j')). lia.
Qed.

Lemma fillRow_dom row rowMap colIndex headers :
  dom (fillRow row rowMap colIndex headers) = dom rowMap ∪ list_to_set headers.
Proof.
  revert rowMap colIndex. induction headers as [|h0 headers IH]; intros m i; simpl.
  - set_solver.
  - rewrite IH, setColumn_spec, dom_insert_L. set_solver.
Qed.

(** C10. Where the data starts at a valid position, the extraction drops
    every row whose cells are all empty after trimming and turns every
    other row, in order, into a map whose keys are exactly the headers;
    the value of a header is the trimmed cell of its column, or the empty
    string when the row is too short to have that column.  (Of two columns
    with the same header the later one provides the value.) *)
Theorem extractDataRows_spec (allRows : list (list string)) (headers : list string)
    (settings : CSVSettings) :
  0 <= startIndex settings ->
  extractDataRows allRows headers settings
  = Some (map (rowToMap headers)
              (filter (fun row => ~ blankRow row)
                      (drop (Z.to_nat (startIndex settings)) allRows)))
  /\ forall row,
       dom (rowToMap headers row) = list_to_set headers
       /\ forall j h,
            headers !! j = Some h ->
            (forall j', (j < j')%nat -> headers !! j' <> Some h) ->
            rowToMap headers row !! h = Some (cellValue row j).
Proof.
  intros Hstart. split.
  - unfold extractDataRows.
    destruct (startIndex settings >=? Z.of_nat (length allRows)) eqn:Hge.
    + rewrite drop_ge by lia. done.
    + replace (startIndex settings <? 0) with false by lia.
      by rewrite convertRows_spec.
  - intros row. unfold rowToMap. split.
    + rewrite fillRow_dom. set_solver.
    + intros j h Hj Hlast. by rewrite (fillRow_last _ _ _ _ j h Hj Hlast).
Qed.

End DataRows.

(** ** XML escaping *)

Section Escaping.
Import gostring xmlwriter.

Lemma byteZ_isByte c : isByte (byteZ c).
Proof.
  unfold isByte, byteZ. pose proof (N_ascii_bounded c). lia.
Qed.

Lemma byteOf_byteZ c : byteOf (byteZ c) = c.
Proof. unfold byteOf, byteZ. rewrite N2Z.id. apply ascii_N_embedding. Qed.

Lemma byteZ_byteOf b : isByte b -> byteZ (byteOf b) = b.
Proof.
  unfold isByte, byteOf, byteZ. intros Hb.
  rewrite N_ascii_embedding by lia. lia.
Qed.

Lemma stringOf_bytesOf s : stringOf (bytesOf s) = s.
Proof.
  unfold stringOf, bytesOf. rewrite map_map.
  rewrite (map_ext _ id) by apply byteOf_byteZ.
  rewrite map_id. apply string_of_list_ascii_of_string.
Qed.

Lemma bytesOf_isByte s : Forall isByte (bytesOf s).
Proof.
  unfold bytesOf. apply Forall_forall. intros b Hb.
  apply list_elem_of_fmap in Hb as (c & -> & _). apply byteZ_isByte.
Qed.

Lemma string_app_cons (c : ascii) (a b : string) :
  String c a +:+ b = String c (a +:+ b).
Proof. reflexivity. Qed.

Lemma string_app_nil_l (a : string) : "" +:+ a = a.
Proof. reflexivity. Qed.

Lemma string_app_assoc (a b c : string) : (a +:+ b) +:+ c = a +:+ (b +:+ c).
Proof.
  induction a as [|x a IH]; [done|]. by rewrite !string_app_cons, IH.
Qed.

Lemma string_app_nil_r (a : string) : a +:+ "" = a.
Proof. induction a as [|x a IH]; [done|]. by rewrite string_app_cons, IH. Qed.

Lemma stringOf_app l1 l2 : stringOf (l1 ++ l2) = stringOf l1 +:+ stringOf l2.
Proof.
  unfold stringOf. induction l1 as [|b l1 IH]; [done|].
  cbn [map app string_of_list_ascii]. by rewrite string_app_cons, IH.
Qed.

Lemma escapeBytes_app s t : escapeBytes (s +:+ t) = escapeBytes s +:+ escapeBytes t.
Proof.
  induction s as [|c s IH]; [done|].
  rewrite string_app_cons. cbn [escapeBytes]. rewrite IH. symmetry.
  apply string_app_assoc.
Qed.

(** The buffer of [escapeXML] after the loop is the concatenation of what
    was written for each rune. *)
Lemma escape_loop (buffer : string) (rs : list Z) :
  foldl (fun buffer r => buffer +:+ escapeRune r) buffer rs
  = buffer +:+ concatStrings (map escapeRune rs).
Proof.
  revert buffer. induction rs as [|r rs IH]; intros buffer.
  - simpl. by rewrite string_app_nil_r.
  - cbn [foldl map concatStrings foldr]. rewrite IH. apply string_app_assoc.
Qed.

(** *** Decoding and encoding one rune *)

(** A well-formed sequence of two or more bytes is the encoding of the
    rune it decodes to, and a single byte below 0x80 is that rune. *)
Lemma decodeRune_encodeRune (bs : list Z) (r : Z) (size : nat) :
  Forall isByte bs ->
  decodeRune bs = Some (r, size) ->
  exists pre rest,
    bs = pre ++ rest /\ length pre = size /\ (1 <= size)%nat
    /\ encodeRune r = pre
    /\ ((size = 1%nat /\ 0 <= r < 128) \/ (128 <= r /\ Forall (fun b => 128 <= b < 256) pre)).
Proof.
  intros Hbytes Hdec. unfold decodeRune in Hdec.
  destruct bs as [|b0 t]; [done|].
  destruct (b0 <? 128) eqn:H0.
  { injection Hdec as <- <-. exists [b0], t.
    apply Forall_cons in Hbytes as [Hb0 _]. unfold isByte in Hb0.
    repeat split; try done.
    - unfold encodeRune. replace ((0 <=? b0) && (b0 <? 128)) with true by lia. done.
    - left. lia. }
  destruct (inRange 194 223 b0) eqn:H2.
  { destruct t as [|b1 t]; [done|].
    destruct (inRange 128 191 b1) eqn:H21; [|done].
    injection Hdec as <- <-. exists [b0; b1], t. unfold inRange in *.
    repeat split; try done; try lia.
    - unfold encodeRune.
      replace ((0 <=? _) && (_ <? 128)) with false by lia.
      replace ((128 <=? _) && (_ <? 2048)) with true by lia.
      f_equal; [|f_equal]; Z.div_mod_to_equations; lia.
    - right. split; [lia|]. repeat constructor; lia. }
  destruct (inRange 224 239 b0) eqn:H3.
  { destruct t as [|b1 [|b2 t]]; [done..|].
    destruct (inRange _ _ b1 && inRange 128 191 b2) eqn:H31; [|done].
    injection Hdec as <- <-. exists [b0; b1; b2], t. unfold inRange in *.
    assert (128 <= b1 <= 191
            /\ (b0 = 224 -> 160 <= b1) /\ (b0 = 237 -> b1 <= 159)) as (Hb1 & Hlo & Hhi).
    { destruct (b0 =? 224) eqn:?; destruct (b0 =? 237) eqn:?; lia. }
    set (r := (b0 - 224) * 4096 + (b1 - 128) * 64 + (b2 - 128)).
    assert (2048 <= r < 65536 /\ ~ (55296 <= r < 57344)) as [Hr Hs] by (unfold r; lia).
    repeat split; try done; try lia.
    - unfold encodeRune.
      replace ((0 <=? r) && (r <? 128)) with false by lia.
      replace ((128 <=? r) && (r <? 2048)) with false by lia.
      replace ((2048 <=? r) && (r <? 55296) || (57344 <=? r) && (r <? 65536))
        with true by lia.
      unfold r. f_equal; [|f_equal; [|f_equal]]; Z.div_mod_to_equations; lia.
    - right. split; [lia|]. repeat constructor; lia. }
  destruct (inRange 240 244 b0) eqn:H4; [|done].
  destruct t as [|b1 [|b2 [|b3 t]]]; [done..|].
  destruct (inRange _ _ b1 && inRange 128 191 b2 && inRange 128 191 b3) eqn:H41; [|done].
  injection Hdec as <- <-. exists [b0; b1; b2; b3], t. unfold inRange in *.
  assert (128 <= b1 <= 191
          /\ (b0 = 240 -> 144 <= b1) /\ (b0 = 244 -> b1 <= 143)) as (Hb1 & Hlo & Hhi).
  { destruct (b0 =? 240) eqn:?; destruct (b0 =? 244) eqn:?; lia. }
  set (r := (b0 - 240) * 262144 + (b1 - 128) * 4096 + (b2 - 128) * 64 + (b3 - 128)).
  assert (65536 <= r <= 1114111) as Hr by (unfold r; lia).
  repeat split; try done; try lia.
  - unfold encodeRune.
    replace ((0 <=? r) && (r <? 128)) with false by lia.
    replace ((128 <=? r) && (r <? 2048)) with false by lia.
    replace ((2048 <=? r) && (r <? 55296) || (57344 <=? r) && (r <? 65536))
      with false by lia.
    replace ((65536 <=? r) && (r <=? 1114111)) with true by lia.
    unfold r. f_equal; [|f_equal; [|f_equal; [|f_equal]]]; Z.div_mod_to_equations; lia.
  - right. split; [lia|]. repeat constructor; lia.
Qed.

Lemma rangeRunes_skip (pre rest : list Z) :
  rangeRunes (length pre) (pre ++ rest) = rangeRunes 0 rest.
Proof. induction pre as [|b pre IH]; [done|]. exact IH. Qed.

Lemma validFrom_skip (pre rest : list Z) :
  validFrom (length pre) (pre ++ rest) = validFrom 0 rest.
Proof. induction pre as [|b pre IH]; [done|]. exact IH. Qed.

Lemma byteOf_eqb (b : Z) (c : ascii) :
  isByte b -> Ascii.eqb (byteOf b) c = (b =? byteZ c).
Proof.
  intros Hb. destruct (Ascii.eqb_spec (byteOf b) c) as [<-|Hne].
  - rewrite byteZ_byteOf by done. lia.
  - symmetry. apply Z.eqb_neq. intros ->. by rewrite byteOf_byteZ in Hne.
Qed.

Lemma escapeByte_high (b : Z) :
  128 <= b < 256 -> escapeByte (byteOf b) = String (byteOf b) EmptyString.
Proof.
  intros Hb. unfold escapeByte.
  rewrite !byteOf_eqb by (unfold isByte; lia).
  change (byteZ "&") with 38. change (byteZ "<") with 60.
  change (byteZ ">") with 62. change (byteZ (ascii_of_nat 34)) with 34.
  change (byteZ "'") with 39.
  replace (b =? 38) with false by lia. replace (b =? 60) with false by lia.
  replace (b =? 62) with false by lia. replace (b =? 34) with false by lia.
  replace (b =? 39) with false by lia. done.
Qed.

Lemma escapeBytes_high (bs : list Z) :
  Forall (fun b => 128 <= b < 256) bs -> escapeBytes (stringOf bs) = stringOf bs.
Proof.
  induction 1 as [|b bs Hb _ IH]; [done|].
  unfold stringOf in *. cbn [map string_of_list_ascii escapeBytes].
  by rewrite escapeByte_high, IH.
Qed.

(** What [escapeXML] writes for a rune is the escaping of the bytes the
    rune was decoded from. *)
Lemma escapeRune_bytes (r : Z) (pre : list Z) (size : nat) :
  Forall isByte pre ->
  encodeRune r = pre ->
  (size = 1%nat /\ 0 <= r < 128) \/ (128 <= r /\ Forall (fun b => 128 <= b < 256) pre) ->
  escapeRune r = escapeBytes (stringOf pre).
Proof.
  intros Hbytes Henc [[_ Hr]|[Hr Hhigh]].
  - assert (pre = [r]) as ->.
    { rewrite <- Henc. unfold encodeRune.
      by replace ((0 <=? r) && (r <? 128)) with true by lia. }
    unfold escapeRune, stringOf. cbn [map string_of_list_ascii escapeBytes].
    unfold escapeByte. rewrite !byteOf_eqb by (unfold isByte; lia).
    change (byteZ "&") with 38. change (byteZ "<") with 60.
    change (byteZ ">") with 62. change (byteZ (ascii_of_nat 34)) with 34.
    change (byteZ "'") with 39.
    destruct (r =? 38); [done|]. destruct (r =? 60); [done|].
    destruct (r =? 62); [done|]. destruct (r =? 34); [done|].
    destruct (r =? 39); [done|].
    unfold stringOfRunes. cbn [flat_map]. rewrite app_nil_r, Henc. done.
  - rewrite escapeBytes_high by done. unfold escapeRune.
    replace (r =? 38) with false by lia. replace (r =? 60) with false by lia.
    replace (r =? 62) with false by lia. replace (r =? 34) with false by lia.
    replace (r =? 39) with false by lia.
    unfold stringOfRunes. cbn [flat_map]. by rewrite app_nil_r, Henc.
Qed.

Lemma escape_valid_bytes (n : nat) (bs : list Z) :
  (length bs <= n)%nat ->
  Forall isByte bs ->
  validFrom 0 bs = true ->
  concatStrings (map escapeRune (rangeRunes 0 bs)) = escapeBytes (stringOf bs).
Proof.
  revert bs. induction n as [|n IH]; intros bs Hlen Hbytes Hvalid.
  - destruct bs; [done|]. simpl in Hlen. lia.
  - destruct bs as [|b0 t]; [done|].
    cbn [validFrom rangeRunes] in *.
    destruct (decodeRune (b0 :: t)) as [[r size]|] eqn:Hdec; [|done].
    destruct (decodeRune_encodeRune _ _ _ Hbytes Hdec)
      as (pre & rest & Hsplit & Hsize & Hpos & Henc & Hcase).
    destruct pre as [|b pre]; [simpl in Hsize; lia|].
    injection Hsplit as <- ->. simpl in Hsize.
    replace (size - 1)%nat with (length pre) in * by lia.
    rewrite validFrom_skip in Hvalid. rewrite rangeRunes_skip.
    apply Forall_cons in Hbytes as [Hb0 Hbytes].
    apply Forall_app in Hbytes as [Hpre Hrest].
    cbn [map concatStrings foldr]. fold (concatStrings (map escapeRune (rangeRunes 0 rest))).
    rewrite IH; [|pose proof (length_app pre rest); simpl in Hlen; lia|done|done].
    change (b0 :: pre ++ rest) with ((b0 :: pre) ++ rest).
    rewrite stringOf_app, escapeBytes_app. f_equal.
    apply (escapeRune_bytes r (b0 :: pre) size); [by constructor|done|done].
Qed.

(** On well-formed UTF-8, [escapeXML] replaces each reserved byte by its
    entity reference and copies every other byte. *)
Lemma escapeXML_bytewise (s : string) :
  utf8Valid s = true -> escapeXML s = escapeBytes s.
Proof.
  intros Hvalid. unfold escapeXML, runes. rewrite escape_loop.
  rewrite (escape_valid_bytes (length (bytesOf s)));
    [|lia|apply bytesOf_isByte|exact Hvalid].
  rewrite stringOf_bytesOf. reflexivity.
Qed.

Lemma prefix_nil (s : string) : String.prefix "" s = true.
Proof. by destruct s. Qed.

Lemma prefix_other (c : ascii) (p t : string) :
  c <> "&"%char -> String.prefix (String "&" p) (String c t) = false.
Proof.
  intros Hc.
  change (String.prefix (String "&" p) (String c t))
    with (if ascii_dec "&" c then String.prefix p t else false).
  destruct (ascii_dec "&" c); [congruence|done].
Qed.

(** Unescaping undoes the byte-wise escaping of any string. *)
Lemma unescape_escapeBytes (s : string) : unescapeXML (escapeBytes s) = s.
Proof.
  unfold unescapeXML. induction s as [|c s IH]; [done|].
  cbn [escapeBytes]. unfold escapeByte.
  destruct (Ascii.eqb_spec c "&") as [->|Hamp];
    [rewrite !string_app_cons, string_app_nil_l; cbn; by rewrite prefix_nil, IH|].
  destruct (Ascii.eqb_spec c "<") as [->|Hlt];
    [rewrite !string_app_cons, string_app_nil_l; cbn; by rewrite prefix_nil, IH|].
  destruct (Ascii.eqb_spec c ">") as [->|Hgt];
    [rewrite !string_app_cons, string_app_nil_l; cbn; by rewrite prefix_nil, IH|].
  destruct (Ascii.eqb_spec c (ascii_of_nat 34)) as [->|Hquot];
    [rewrite !string_app_cons, string_app_nil_l; cbn; by rewrite prefix_nil, IH|].
  destruct (Ascii.eqb_spec c "'") as [->|Hapos];
    [rewrite !string_app_cons, string_app_nil_l; cbn; by rewrite prefix_nil, IH|].
  rewrite string_app_cons. cbn [unescapeFrom].
  rewrite !prefix_other by done.
  by rewrite string_app_nil_l, IH.
Qed.

(** C7, as it holds.  On a string that is well-formed UTF-8, [escapeXML]
    replaces each of the five reserved characters by its entity reference
    and leaves every other byte as it is, and unescaping the result gives
    the string back; element text and attribute values are both written
    through [escapeXML]. *)
Theorem escapeXML_roundtrip_utf8 (s : string) :
  utf8Valid s = true ->
  escapeXML s = escapeBytes s
  /\ unescapeXML (escapeXML s) = s
  /\ (forall buffer name indent level,
        s <> "" ->
        writeElement buffer (createSimpleElement name s) indent level
        = writeIndent buffer indent level +:+ "<" +:+ name +:+ ">"
            +:+ escapeBytes s +:+ "</" +:+ name +:+ ">" +:+ newline)
  /\ (forall buffer name,
        writeAttribute buffer (name, s)
        = buffer +:+ " " +:+ name +:+ "=" +:+ String (ascii_of_nat 34) EmptyString
            +:+ escapeBytes s +:+ String (ascii_of_nat 34) EmptyString).
Proof.
  intros Hvalid. rewrite (escapeXML_bytewise s Hvalid).
  split; [done|]. split; [apply unescape_escapeBytes|]. split.
  - intros buffer name indent level Hs. unfold createSimpleElement.
    cbn [writeElement foldl]. destruct s as [|c s]; [done|].
    rewrite decide_True by done. rewrite (escapeXML_bytewise _ Hvalid).
    by rewrite !string_app_assoc.
  - intros buffer name. unfold writeAttribute. cbn [fst snd].
    by rewrite (escapeXML_bytewise s Hvalid).
Qed.

End Escaping.

(** ** The claims on the sample data *)

Section Samples.
Import config xlsxparser converter validation xmlwriter gostring csvparser samples reference.

(** C1. With per-transaction numbering requested, the sample unit of work
    (two line items of check 1001, one of check 1002) is written with the
    line-item indices 1, 2 and then 3: the index of the second transaction
    does not restart at 1.  With global numbering the indices are 1, 2, 3
    as well. *)
Theorem local_numbering_does_not_restart :
  documentLineItemIndices
    (buildDocument (groupTransactions "Check" rows) schema [] localNumbering)
  = [["1"; "2"]; ["3"]]
  /\ documentLineItemIndices
       (buildDocument (groupTransactions "Check" rows) schema [] DefaultGenerateOptions)
     = [["1"; "2"]; ["3"]].
Proof. split; vm_compute; reflexivity. Qed.

(** The sample unit of work, step by step. *)
Example sample_groups :
  map (fun tx => (tx_ID tx, tx_GroupKey tx, map li_ID (tx_LineItems tx)))
      (groupTransactions "Check" rows)
  = [(1, "1001", [1; 2]); (2, "1002", [3])].
Proof. vm_compute. reflexivity. Qed.

Example sample_ungrouped :
  map (fun tx => (tx_ID tx, map li_ID (tx_LineItems tx))) (groupTransactions "" rows)
  = [(1, [1]); (2, [2]); (3, [3])].
Proof. vm_compute. reflexivity. Qed.

Example sample_conditions :
  evaluateCondition "if Payee == 'Acme'" (record [("Payee", "Acme")]) = true
  /\ evaluateCondition "Payee != 'Acme'" (record [("Payee", "Acme")]) = false
  /\ evaluateCondition "if Amount > 100" (record [("Amount", "100.5")]) = true
  /\ evaluateCondition "if Amount < 100.75" (record [("Amount", "100.5")]) = true
  /\ evaluateCondition "if Amount > 100" (record [("Payee", "Acme")]) = false
  /\ evaluateCondition "Payee starts_with 'Ac'" (record [("Payee", "Acme")]) = true
  /\ evaluateCondition "Memo is_empty" (record [("Payee", "Acme")]) = true
  /\ evaluateCondition "Payee is_not_empty" (record [("Payee", "Acme")]) = true.
Proof. repeat split; vm_compute; reflexivity. Qed.

Example sample_validation :
  ValidateLineItem (NewValidator schema) transactionWithoutMemo lineItemWithoutMemo = []
  /\ map ve_Rule (ValidateLineItem (NewValidator schema) transactionEmptyMemo
                                   lineItemEmptyMemo)
     = ["required"]
  /\ validateDataType "12.345" "decimal(2)" <> ""
  /\ validateDataType "12.34" "decimal(2)" = "".
Proof. repeat split; vm_compute; (reflexivity || discriminate). Qed.

Example sample_escape :
  escapeXML reservedText
  = "&lt;a href=&apos;x&apos;&gt;caf"
      +:+ String (ascii_of_nat 195) (String (ascii_of_nat 169) EmptyString)
      +:+ " &amp; co&lt;/a&gt;".
Proof. vm_compute. reflexivity. Qed.

Example sample_line_item_element :
  buildLineItemElement lineItemEmptyMemo schema [] DefaultGenerateOptions 7
  = mkXMLElement "lineItem" [("n", "7")] ""
      [createSimpleElement "Amount" "10.50"; createSimpleElement "Memo" ""].
Proof. vm_compute. reflexivity. Qed.

Lemma groupTransactions_partition_witness :
  "Check" <> ""
  /\ map tx_GroupKey (groupTransactions "Check" rows) = ["1001"; "1002"]
  /\ length (groupTransactions "Check" rows) = 2%nat.
Proof.
  assert ("Check" <> "") as Hf by discriminate.
  destruct (groupTransactions_partition "Check" rows) as [Hgrouped _].
  destruct (Hgrouped Hf) as (Hkeys & _ & _ & Hsize & _).
  split; [exact Hf|]. split.
  - rewrite Hkeys. vm_compute. reflexivity.
  - rewrite Hsize. vm_compute. reflexivity.
Defined.

Lemma ValidateField_required_empty_witness :
  fm_RequiredType memoMapping = "required"
  /\ exists e,
       ValidateField "" memoMapping transactionEmptyMemo lineItemEmptyMemo = [e]
       /\ ve_Rule e = "required".
Proof.
  split; [reflexivity|].
  destruct (ValidateField_required_empty "" memoMapping transactionEmptyMemo
              lineItemEmptyMemo eq_refl eq_refl) as (e & He & Hrule & _).
  exists e. split; [exact He|exact Hrule].
Defined.

Lemma evaluateCondition_unmatched_witness :
  Forall (fun pattern =>
            regexp_FindStringSubmatch pattern
              (strings_TrimSpace (TrimPrefix "if Amount >= 100" "if ")) = [])
         conditionPatterns
  /\ evaluateCondition "if Amount >= 100" (record [("Amount", "250")]) = false.
Proof.
  assert (Forall (fun pattern =>
            regexp_FindStringSubmatch pattern
              (strings_TrimSpace (TrimPrefix "if Amount >= 100" "if ")) = [])
         conditionPatterns) as Hnone.
  { repeat constructor; vm_compute; reflexivity. }
  split; [exact Hnone|].
  apply evaluateCondition_unmatched. intros pattern Hin.
  exact (proj1 (Forall_forall _ _) Hnone pattern Hin).
Defined.

Lemma ensure_length_spec_witness :
  ApplyTransformation "12345678901234" ensureLength10 ∅ = ("1234567890", None)
  /\ ApplyTransformation "123" ensureLength10 ∅ = ("0000000123", None).
Proof.
  assert (0 < 10) as Hpos by lia.
  split.
  - exact (proj1 (ensure_length_spec "12345678901234" ensureLength10 ∅ 10
                    eq_refl eq_refl Hpos)).
  - exact (proj1 (ensure_length_spec "123" ensureLength10 ∅ 10 eq_refl eq_refl Hpos)).
Defined.

(** C7 as stated fails: the byte [0xFF] is read as the rune U+FFFD and
    written as the three bytes [0xEF 0xBF 0xBD], so the escaped text does
    not give the original back. *)
Lemma escapeXML_ill_formed_not_restored :
  escapeXML illFormed = replacementCharacter
  /\ unescapeXML (escapeXML illFormed) <> illFormed.
Proof. split; [vm_compute; reflexivity|vm_compute; discriminate]. Qed.

Lemma escapeXML_roundtrip_utf8_witness :
  utf8Valid reservedText = true
  /\ unescapeXML (escapeXML reservedText) = reservedText.
Proof.
  assert (utf8Valid reservedText = true) as Hvalid by (vm_compute; reflexivity).
  split; [exact Hvalid|].
  exact (proj1 (proj2 (escapeXML_roundtrip_utf8 reservedText Hvalid))).
Defined.

Lemma schema_field_emitted_iff_witness :
  Children (buildLineItemElement lineItemEmptyMemo schema [] DefaultGenerateOptions 1)
  = [createSimpleElement "Amount" "10.50"; createSimpleElement "Memo" ""]
  /\ ("Memo" ∈ filter (emitted schema (li_Fields lineItemEmptyMemo))
                      (getOrderedFields (sc_LineItemFields schema) schema)
      <-> "Memo" ∈ sc_LineItemFields schema
          /\ exists mapping,
               GetFieldMapping schema "Memo" = Some mapping
               /\ (li_Fields lineItemEmptyMemo !!! "Memo" <> ""
                   \/ fm_RequiredType mapping = "required")).
Proof.
  destruct (schema_field_emitted_iff schema [] DefaultGenerateOptions)
    as (Hitem & _ & Hiff & _).
  split.
  - rewrite Hitem. vm_compute. reflexivity.
  - apply Hiff.
Defined.

Lemma ValidateLineItem_ignores_absent_keys_witness :
  keyedByOldHeader schema
  /\ li_Fields lineItemWithoutMemo !! "Memo" = None
  /\ Forall (fun e => ve_Field e <> "Memo")
            (ValidateLineItem (NewValidator schema) transactionWithoutMemo
               lineItemWithoutMemo).
Proof.
  assert (keyedByOldHeader schema) as Hkeyed.
  { apply (bool_decide_unpack _). vm_compute. exact I. }
  assert (li_Fields lineItemWithoutMemo !! "Memo" = None) as Habsent
    by (vm_compute; reflexivity).
  split; [exact Hkeyed|]. split; [exact Habsent|].
  apply (ValidateLineItem_ignores_absent_keys (NewValidator schema)
           transactionWithoutMemo lineItemWithoutMemo
           (map_to_list (li_Fields lineItemWithoutMemo)) "Memo" Hkeyed).
  - unfold visitOrder. reflexivity.
  - exact Habsent.
Defined.

Lemma extractDataRows_spec_witness :
  0 <= startIndex csvSettings
  /\ extractDataRows csvRows csvHeaders csvSettings
     = Some [ record [("Check", "1001"); ("Payee", "Acme"); ("Amount", "10.50")];
              record [("Check", "1002"); ("Payee", "Bolt"); ("Amount", "")] ].
Proof.
  assert (0 <= startIndex csvSettings) as Hstart by (vm_compute; discriminate).
  split; [exact Hstart|].
  rewrite (proj1 (extractDataRows_spec csvRows csvHeaders csvSettings Hstart)).
  vm_compute. reflexivity.
Defined.

End Samples.
